(** * llm-gpu-api: the cache-aside request layer of [app.py]

    A shallow embedding of the request path of [app.py] (cache-key
    derivation, the Redis gateway, the [/generate] handler and its failure
    classification) together with the properties of it that the
    specification states.

    Conventions of the embedding.
    - A Python [str] is a Rocq [string]; one [ascii] stands for one
      character, so the embedding covers the code points below 256.
    - A Python [float] is a binary64 [float] of the kernel.
    - A Python [int] is a [Z].
    - A [dict] is an association list in insertion order.
    - Code that can raise returns an [outcome]; code with effects threads a
      [World] through a state-and-exception monad.
    - What the libraries compute (the digest, the parser, the conversions
      of the response model) is a parameter of the [Runtime]. *)

From Stdlib Require Import ZArith List String Ascii Floats Permutation Sorted
  OrderedTypeEx Lia DecimalString.
From stdpp Require Import base gmap strings pretty sorting list.

Set Warnings "-inexact-float,-register-all,-clear-no-such-hyp".
Local Open Scope Z_scope.

(** ** Python strings *)

Module PyStr.

(** [str.lower] on one character: ASCII capitals and the capitals of
    Latin-1 (U+00C0..U+00DE without the multiplication sign U+00D7). *)
Definition lower_char (c : ascii) : ascii :=
  let n := nat_of_ascii c in
  if ((65 <=? n)%nat && (n <=? 90)%nat)
     || ((192 <=? n)%nat && (n <=? 222)%nat && negb (n =? 215)%nat)
  then ascii_of_nat (n + 32)
  else c.

(** [s.lower()] *)
Fixpoint lower (s : string) : string :=
  match s with
  | EmptyString => EmptyString
  | String c s' => String (lower_char c) (lower s')
  end.

(** [needle in hay] for two strings: [needle] occurs as a substring. *)
Fixpoint contains (needle hay : string) : bool :=
  String.prefix needle hay
  || match hay with
     | EmptyString => false
     | String _ hay' => contains needle hay'
     end.

(** [c in s] for one character. *)
Fixpoint has_char (c : ascii) (s : string) : bool :=
  match s with
  | EmptyString => false
  | String d s' => Ascii.eqb c d || has_char c s'
  end.

(** [sep.join(parts)] *)
Fixpoint join (sep : string) (parts : list string) : string :=
  match parts with
  | [] => EmptyString
  | [p] => p
  | p :: ps => p +:+ sep +:+ join sep ps
  end.

End PyStr.

(** ** Python values that travel through [json] *)

Inductive jvalue : Type :=
| JNone
| JBool (b : bool)
| JInt (z : Z)
| JFloat (f : float)
| JStr (s : string)
| JList (l : list jvalue)
| JDict (d : list (string * jvalue)).

(** A [dict] with [str] keys, in insertion order. *)
Abbreviation pydict := (list (string * jvalue)).

Module PyDict.

(** [d.get(k)] *)
Fixpoint get (k : string) (d : pydict) : option jvalue :=
  match d with
  | [] => None
  | (k', v) :: d' => if String.eqb k k' then Some v else get k d'
  end.

(** [d[k] = v]: an existing key keeps its position, a new key goes last. *)
Fixpoint set (k : string) (v : jvalue) (d : pydict) : pydict :=
  match d with
  | [] => [(k, v)]
  | (k', v') :: d' =>
      if String.eqb k k' then (k, v) :: d' else (k', v') :: set k v d'
  end.

Definition keys (d : pydict) : list string := map fst d.

End PyDict.

(** Truth value of an object, as [if cached:] tests it. *)
Definition truthy (v : jvalue) : bool :=
  match v with
  | JNone => false
  | JBool b => b
  | JInt z => negb (z =? 0)
  | JFloat f => negb (PrimFloat.eqb f 0%float)
  | JStr s => negb (String.eqb s "")
  | JList l => match l with [] => false | _ => true end
  | JDict d => match d with [] => false | _ => true end
  end.

(** ** Outcomes of code that can raise *)

Inductive exn : Type :=
| HTTPException (status_code : Z) (detail : string)
| PyError (message : string).          (* any other [Exception]; [str(e)] *)

Inductive outcome (A : Type) : Type :=
| Ok (a : A)
| Raise (e : exn).
Arguments Ok {A} a.
Arguments Raise {A} e.

(** [str(e)]; Starlette prints an [HTTPException] as ["<status>: <detail>"]. *)
Definition exn_str (e : exn) : string :=
  match e with
  | PyError m => m
  | HTTPException c d => pretty c +:+ ": " +:+ d
  end.

(** ** [json.dumps]

    The encoder of the standard library with its defaults
    ([ensure_ascii=True], separators [", "] and [": "]). The text of a
    float ([float.__repr__], and [NaN], [Infinity], [-Infinity]) is the
    interpreter's and enters as [float_repr]. *)

Module Json.

Definition hex_digit (n : nat) : ascii :=
  match n with
  | 0 => "0" | 1 => "1" | 2 => "2" | 3 => "3" | 4 => "4" | 5 => "5"
  | 6 => "6" | 7 => "7" | 8 => "8" | 9 => "9" | 10 => "a" | 11 => "b"
  | 12 => "c" | 13 => "d" | 14 => "e" | _ => "f"
  end%char%nat.

(** One character of a string literal: the backslash, the quote and
    everything outside [' '..'~'] are escaped. *)
Definition escape_char (c : ascii) : string :=
  let n := nat_of_ascii c in
  if (n =? 34)%nat then "\" +:+ String c ""
  else if (n =? 92)%nat then "\\"
  else if (n =? 10)%nat then "\n"
  else if (n =? 13)%nat then "\r"
  else if (n =? 9)%nat then "\t"
  else if (n =? 8)%nat then "\b"
  else if (n =? 12)%nat then "\f"
  else if ((32 <=? n)%nat && (n <=? 126)%nat) then String c ""
  else "\u00" +:+ String (hex_digit (n / 16)) (String (hex_digit (n mod 16)) "").

Fixpoint escape (s : string) : string :=
  match s with
  | EmptyString => EmptyString
  | String c s' => escape_char c +:+ escape s'
  end.

Definition dquote : ascii := ascii_of_nat 34.

Definition quote (s : string) : string :=
  String dquote (escape s +:+ String dquote "").

(** Items ordered by key, as [sorted(d.items())] orders a [dict] with
    [str] keys. *)
Definition key_le {A} (a b : string * A) : Prop :=
  String.le (fst a) (fst b).

Fixpoint insert_item {A} (x : string * A) (l : list (string * A))
  : list (string * A) :=
  match l with
  | [] => [x]
  | y :: l' =>
      if String.leb (fst x) (fst y) then x :: y :: l'
      else y :: insert_item x l'
  end.

Fixpoint sort_items {A} (l : list (string * A)) : list (string * A) :=
  match l with
  | [] => []
  | x :: l' => insert_item x (sort_items l')
  end.

Section Dumps.

Variable float_repr : float -> string.
Variable sort_keys : bool.

Definition item_text (kv : string * string) : string :=
  quote (fst kv) +:+ ": " +:+ snd kv.

(** The values of a dict are rendered first and the rendered items are
    ordered afterwards: the order depends on the keys alone. *)
Fixpoint dumps (v : jvalue) : string :=
  match v with
  | JNone => "null"
  | JBool true => "true"
  | JBool false => "false"
  | JInt z => pretty z
  | JFloat f => float_repr f
  | JStr s => quote s
  | JList l => "[" +:+ PyStr.join ", " (map dumps l) +:+ "]"
  | JDict d =>
      let items := map (fun kv => (fst kv, dumps (snd kv))) d in
      let items := if sort_keys then sort_items items else items in
      "{" +:+ PyStr.join ", " (map item_text items) +:+ "}"
  end.

End Dumps.

End Json.

(** ** What the interpreter and the libraries supply

    The parts of the request path that live outside [app.py]: the text of
    a float, the digest, the JSON parser and the text of a pydantic
    validation error. *)

Class Runtime : Type := {
  (** text of a float in [json.dumps] *)
  float_repr : float -> string;
  (** [format(x, ".2f")] *)
  format_2f : float -> string;
  (** [hashlib.md5(s.encode()).hexdigest()] *)
  md5_hexdigest : string -> string;
  (** [json.loads(s)] *)
  json_loads : string -> outcome jvalue;
  (** [str(e)] of the [ValidationError] of a model built from a dict *)
  validation_error : pydict -> string;
  (** the value pydantic gives an [int] field for an input, or its refusal:
      besides an [int] the default mode also takes, for one, a numeric
      [str] or a [float] without fraction *)
  pydantic_int : jvalue -> option Z;
  (** the same for a [float] field *)
  pydantic_float : jvalue -> option float;
  (** the same for a [bool] field *)
  pydantic_bool : jvalue -> option bool;
  (** an input that already has the declared type is taken as it is *)
  pydantic_int_int : forall n, pydantic_int (JInt n) = Some n;
  pydantic_float_float : forall x, pydantic_float (JFloat x) = Some x;
  pydantic_bool_bool : forall b, pydantic_bool (JBool b) = Some b;
}.

(** ** Request and response models *)

Module GenerationRequest.
Record t : Type := {
  prompt : string;
  max_new_tokens : Z;
  temperature : float;
  top_p : float;
  do_sample : bool;
  stream : bool;
}.
End GenerationRequest.

Module GenerationResponse.
Record t : Type := {
  prompt : string;
  generated_text : string;
  processing_time : float;
  device_used : string;
  cached : bool;
  tokens_generated : Z;
}.
End GenerationResponse.

(** A JSON body of [POST /generate] after parsing: each field absent or
    present with a value of the field's type. *)
Record RawBody : Type := {
  rb_prompt : option string;
  rb_max_new_tokens : option Z;
  rb_temperature : option float;
  rb_top_p : option float;
  rb_do_sample : option bool;
  rb_stream : option bool;
}.

(** [Field(default=d, ge=lo, le=hi)] on an [int]: an absent field takes the
    default, a present one must lie within the bounds. *)
Definition int_field (default lo hi : Z) (v : option Z) : option Z :=
  match v with
  | None => Some default
  | Some n => if (lo <=? n) && (n <=? hi) then Some n else None
  end.

(** [Field(default=d, ge=lo, le=hi)] on a [float]. *)
Definition float_field (default lo hi : float) (v : option float)
  : option float :=
  match v with
  | None => Some default
  | Some x => if PrimFloat.leb lo x && PrimFloat.leb x hi then Some x else None
  end.

(** [Field(..., min_length=lo, max_length=hi)] on a [str]: required. *)
Definition str_field (lo hi : nat) (v : option string) : option string :=
  match v with
  | None => None
  | Some s =>
      let n := String.length s in
      if (lo <=? n)%nat && (n <=? hi)%nat then Some s else None
  end.

(** [Field(default=d)] on a [bool]. *)
Definition bool_field (default : bool) (v : option bool) : option bool :=
  match v with
  | None => Some default
  | Some b => Some b
  end.

(** The [GenerationRequest] built from a body: [None] stands for the [ValidationError]
    that makes the framework answer 422 without calling the handler. *)
Definition validate_request (b : RawBody) : option GenerationRequest.t :=
  match str_field 1 2000 (rb_prompt b),
        int_field 100 1 500 (rb_max_new_tokens b),
        float_field 0.7 0.1 2.0 (rb_temperature b),
        float_field 0.9 0.1 1.0 (rb_top_p b),
        bool_field true (rb_do_sample b),
        bool_field false (rb_stream b) with
  | Some p, Some n, Some t, Some tp, Some ds, Some st =>
      Some {| GenerationRequest.prompt := p;
              GenerationRequest.max_new_tokens := n;
              GenerationRequest.temperature := t;
              GenerationRequest.top_p := tp;
              GenerationRequest.do_sample := ds;
              GenerationRequest.stream := st |}
  | _, _, _, _, _, _ => None
  end.

(** ** The process: globals, store, clock, log *)

(** [text_generator(prompt, **gen_args)] receives these keywords. *)
Record GenArgs : Type := {
  ga_max_new_tokens : Z;
  ga_temperature : float;
  ga_top_p : float;
  ga_do_sample : bool;
  ga_pad_token_id : option Z;
  ga_return_full_text : bool;
}.

Record Tokenizer : Type := {
  eos_token_id : option Z;
  (** [tokenizer.encode(text)] *)
  encode : jvalue -> outcome (list Z);
}.

(** The loaded [AutoModelForCausalLM]; the request path only tests it
    against [None]. *)
Inductive Model : Type := LoadedModel.

(** The module-level names that [initialize_model] assigns. *)
Record Globals : Type := {
  DEVICE : string;
  tokenizer : option Tokenizer;
  model : option Model;
  (** the [pipeline]: a list of dicts, or an exception *)
  text_generator : option (string -> GenArgs -> outcome (list pydict));
}.

Inductive redis_op : Type :=
| OpGet (key : string)
| OpSetex (key : string) (ttl : Z) (value : string).

(** The Redis server as seen through the client: the stored entries with
    their time to live, the commands issued so far, and for each command
    number whether the server fails it (and with which message). *)
Record Redis : Type := {
  r_data : gmap string (Z * string);
  r_ops : list redis_op;
  r_fault : nat -> option string;
}.

Inductive level : Type := INFO | WARNING | ERROR.

(** [background_tasks.add_task(cache_response, key, response, ttl)] *)
Record Task : Type := {
  task_key : string;
  task_response : pydict;
  task_ttl : Z;
}.

Record World : Type := {
  (** successive readings of [time.time()] *)
  clock : nat -> float;
  ticks : nat;
  (** the global [redis_client]; [None] when no store is configured *)
  redis_client : option Redis;
  (** records emitted through [logger] *)
  logger : list (level * string);
  (** the [BackgroundTasks] object of the request being handled *)
  background_tasks : list Task;
}.

Definition set_ticks (n : nat) (w : World) : World :=
  {| clock := clock w; ticks := n; redis_client := redis_client w;
     logger := logger w; background_tasks := background_tasks w |}.

Definition set_redis (r : option Redis) (w : World) : World :=
  {| clock := clock w; ticks := ticks w; redis_client := r;
     logger := logger w; background_tasks := background_tasks w |}.

Definition set_logger (l : list (level * string)) (w : World) : World :=
  {| clock := clock w; ticks := ticks w; redis_client := redis_client w;
     logger := l; background_tasks := background_tasks w |}.

Definition set_tasks (t : list Task) (w : World) : World :=
  {| clock := clock w; ticks := ticks w; redis_client := redis_client w;
     logger := logger w; background_tasks := t |}.

(** ** The monad of the request path: state and exceptions.
    An exception keeps the effects that came before it. *)

Definition M (A : Type) : Type := World -> outcome A * World.

Definition ret {A} (a : A) : M A := fun w => (Ok a, w).

Definition raise {A} (e : exn) : M A := fun w => (Raise e, w).

Definition bind {A B} (m : M A) (k : A -> M B) : M B :=
  fun w =>
    match m w with
    | (Ok a, w') => k a w'
    | (Raise e, w') => (Raise e, w')
    end.

(** [try: m except Exception as e: h e] *)
Definition try_except {A} (m : M A) (h : exn -> M A) : M A :=
  fun w =>
    match m w with
    | (Ok a, w') => (Ok a, w')
    | (Raise e, w') => h e w'
    end.

(** The result of a call into a library. *)
Definition lift {A} (o : outcome A) : M A := fun w => (o, w).

Notation "'let*' x ':=' m 'in' k" := (bind m (fun x => k))
  (at level 10, x name, m at level 100, k at level 200).
Notation "m ';;' k" := (bind m (fun _ => k))
  (at level 100, k at level 200, right associativity).

(** [time.time()] *)
Definition time_time : M float :=
  fun w => (Ok (clock w (ticks w)), set_ticks (S (ticks w)) w).

Definition log (lv : level) (msg : string) : M unit :=
  fun w => (Ok tt, set_logger (logger w ++ [(lv, msg)]) w).

(** [background_tasks.add_task(cache_response, key, response, ttl)] *)
Definition add_task (t : Task) : M unit :=
  fun w => (Ok tt, set_tasks (background_tasks w ++ [t]) w).

(** One command sent to the server: it is recorded, then fails or runs. *)
Definition redis_command {A} (op : redis_op) (run : Redis -> A * gmap string (Z * string))
  : M A :=
  fun w =>
    match redis_client w with
    | None => (Raise (PyError "'NoneType' object has no attribute"), w)
    | Some r =>
        let n := length (r_ops r) in
        let ops := r_ops r ++ [op] in
        match r_fault r n with
        | Some msg =>
            (Raise (PyError msg),
             set_redis (Some {| r_data := r_data r; r_ops := ops;
                                r_fault := r_fault r |}) w)
        | None =>
            let '(a, d) := run r in
            (Ok a,
             set_redis (Some {| r_data := d; r_ops := ops;
                                r_fault := r_fault r |}) w)
        end
    end.

(** [redis_client.get(key)] with [decode_responses=True] *)
Definition redis_get (key : string) : M (option string) :=
  redis_command (OpGet key) (fun r => (snd <$> r_data r !! key, r_data r)).

(** [redis_client.setex(key, ttl, value)] *)
Definition redis_setex (key : string) (ttl : Z) (value : string) : M unit :=
  redis_command (OpSetex key ttl value)
    (fun r => (tt, <[key := (ttl, value)]> (r_data r))).

(** ** Dynamic operations on values *)

(** [obj[key] = v] with a [str] key. *)
Definition setitem (obj : jvalue) (key : string) (v : jvalue) : outcome jvalue :=
  match obj with
  | JDict d => Ok (JDict (PyDict.set key v d))
  | JList _ => Raise (PyError "list indices must be integers or slices, not str")
  | JStr _ => Raise (PyError "'str' object does not support item assignment")
  | JInt _ => Raise (PyError "'int' object does not support item assignment")
  | JFloat _ => Raise (PyError "'float' object does not support item assignment")
  | JBool _ => Raise (PyError "'bool' object does not support item assignment")
  | JNone => Raise (PyError "'NoneType' object does not support item assignment")
  end.

(** [results[0]] *)
Definition first_item (results : list pydict) : outcome pydict :=
  match results with
  | r :: _ => Ok r
  | [] => Raise (PyError "list index out of range")
  end.

(** [d[key]] on a dict; a [KeyError] prints as the quoted key. *)
Definition getitem (d : pydict) (key : string) : outcome jvalue :=
  match PyDict.get key d with
  | Some v => Ok v
  | None => Raise (PyError ("'" +:+ key +:+ "'"))
  end.

Section Service.

Context `{RT : Runtime}.
Variable G : Globals.

(** The [GenerationResponse] built from the keywords of a dict. Every
    declared field must be present; other keys are ignored. The model
    validates in pydantic's default mode, which converts: the [int], the
    [float] and the [bool] field take what [pydantic_int], [pydantic_float]
    and [pydantic_bool] make of the value given. A [str] field takes a
    [str] only, no other value of a JSON document is turned into text. *)
Definition response_of_dict (d : pydict) : outcome GenerationResponse.t :=
  match PyDict.get "prompt" d, PyDict.get "generated_text" d,
        PyDict.get "processing_time" d, PyDict.get "device_used" d,
        PyDict.get "cached" d, PyDict.get "tokens_generated" d with
  | Some (JStr p), Some (JStr g), Some vt, Some (JStr dev), Some vc, Some vn =>
      match pydantic_float vt, pydantic_bool vc, pydantic_int vn with
      | Some t, Some c, Some n =>
          Ok {| GenerationResponse.prompt := p;
                GenerationResponse.generated_text := g;
                GenerationResponse.processing_time := t;
                GenerationResponse.device_used := dev;
                GenerationResponse.cached := c;
                GenerationResponse.tokens_generated := n |}
      | _, _, _ => Raise (PyError (validation_error d))
      end
  | _, _, _, _, _, _ => Raise (PyError (validation_error d))
  end.

(** [GenerationResponse] applied to the keywords of [obj]. *)
Definition response_of (obj : jvalue) : outcome GenerationResponse.t :=
  match obj with
  | JDict d => response_of_dict d
  | _ => Raise (PyError "argument after ** must be a mapping")
  end.

(** The text that [get_cache_key] hashes (its local [cache_data]). *)
Definition cache_data (prompt : string) (params : pydict) : string :=
  prompt +:+ ":" +:+ Json.dumps float_repr true (JDict params).

(** [get_cache_key(prompt, params)] *)
Definition get_cache_key (prompt : string) (params : pydict) : string :=
  "llm:" +:+ md5_hexdigest (cache_data prompt params).

(** The dict [cache_params] that [generate_text] builds from a request. *)
Definition cache_params (request : GenerationRequest.t) : pydict :=
  [ ("max_new_tokens", JInt (GenerationRequest.max_new_tokens request));
    ("temperature", JFloat (GenerationRequest.temperature request));
    ("top_p", JFloat (GenerationRequest.top_p request));
    ("do_sample", JBool (GenerationRequest.do_sample request)) ].

(** The keywords [gen_args] passed to the pipeline. *)
Definition gen_args (tok : Tokenizer) (request : GenerationRequest.t)
  : GenArgs :=
  {| ga_max_new_tokens := GenerationRequest.max_new_tokens request;
     ga_temperature := GenerationRequest.temperature request;
     ga_top_p := GenerationRequest.top_p request;
     ga_do_sample := GenerationRequest.do_sample request;
     ga_pad_token_id := eos_token_id tok;
     ga_return_full_text := false |}.

(** The dict [response] assembled after a generation. *)
Definition response_dict (request : GenerationRequest.t) (text : jvalue)
    (elapsed : float) (tokens : Z) : pydict :=
  [ ("prompt", JStr (GenerationRequest.prompt request));
    ("generated_text", text);
    ("processing_time", JFloat elapsed);
    ("device_used", JStr (DEVICE G));
    ("cached", JBool false);
    ("tokens_generated", JInt tokens) ].

(** [cache_response(key, response, ttl)] *)
Definition cache_response (key : string) (response : pydict) (ttl : Z)
  : M unit :=
  fun w =>
    match redis_client w with
    | Some _ =>
        try_except
          (redis_setex key ttl (Json.dumps float_repr false (JDict response)))
          (fun e => log WARNING ("Cache write failed: " +:+ exn_str e))
          w
    | None => (Ok tt, w)
    end.

(** [get_cached_response(key)]; [JNone] is Python's [None]. *)
Definition get_cached_response (key : string) : M jvalue :=
  fun w =>
    match redis_client w with
    | Some _ =>
        try_except
          (let* cached := redis_get key in
           match cached with
           | Some s =>
               if negb (String.eqb s "") then lift (json_loads s)
               else ret JNone
           | None => ret JNone
           end)
          (fun e =>
             log WARNING ("Cache read failed: " +:+ exn_str e);;
             ret JNone)
          w
    | None => (Ok JNone, w)
    end.

(** The failure classification at the end of [generate_text]. *)
Definition classify_failure {A} (e : exn) : M A :=
  log ERROR ("Generation error: " +:+ exn_str e);;
  if PyStr.contains "out of memory" (PyStr.lower (exn_str e))
  then raise (HTTPException 507 "GPU memory insufficient")
  else raise (HTTPException 500 ("Generation failed: " +:+ exn_str e)).

(** [text_generator(prompt, **gen_args)] *)
Definition call_text_generator (prompt : string) (a : GenArgs)
  : outcome (list pydict) :=
  match text_generator G with
  | Some f => f prompt a
  | None => Raise (PyError "'NoneType' object is not callable")
  end.

(** [generate_text(request, background_tasks)] *)
Definition generate_text (request : GenerationRequest.t)
  : M GenerationResponse.t :=
  let* start := time_time in
  match model G, tokenizer G with
  | Some _, Some tok =>
      let cache_key :=
        get_cache_key (GenerationRequest.prompt request)
          (cache_params request) in
      let* cached := get_cached_response cache_key in
      if truthy cached then
        log INFO "Serving from cache";;
        let* now := time_time in
        let* cached := lift (setitem cached "processing_time"
                               (JFloat (PrimFloat.sub now start))) in
        let* cached := lift (setitem cached "cached" (JBool true)) in
        lift (response_of cached)
      else
        try_except
          (let* results :=
             lift (call_text_generator
                     (GenerationRequest.prompt request)
                     (gen_args tok request)) in
           let* result := lift (first_item results) in
           let* text := lift (getitem result "generated_text") in
           let* ids := lift (encode tok text) in
           let tokens := Z.of_nat (length ids) in
           let* now := time_time in
           let response :=
             response_dict request text (PrimFloat.sub now start) tokens in
           add_task {| task_key := cache_key; task_response := response;
                       task_ttl := 3600 |};;
           log INFO ("Generated " +:+ pretty tokens +:+ " tokens in "
                     +:+ format_2f (PrimFloat.sub now start) +:+ "s");;
           lift (response_of_dict response))
          classify_failure
  | _, _ => raise (HTTPException 503 "Model not loaded")
  end.

(** The tasks of a request run one after another once its response has
    been handed over. *)
Fixpoint run_tasks (ts : list Task) : M unit :=
  match ts with
  | [] => ret tt
  | t :: ts' =>
      cache_response (task_key t) (task_response t) (task_ttl t);;
      run_tasks ts'
  end.

Definition run_background_tasks : M unit :=
  fun w => run_tasks (background_tasks w) (set_tasks [] w).

End Service.

(** ** The route [POST /generate] as the framework drives it *)

Inductive http_response : Type :=
| Response200 (body : GenerationResponse.t)
| ResponseError (status_code : Z) (detail : string).

Section Route.

Context `{RT : Runtime}.
Variable G : Globals.

(** A body that does not validate is answered 422 and the handler is not
    called. An [HTTPException] becomes its status and detail; any other
    exception becomes a bare 500. A request starts with an empty
    [BackgroundTasks]; the tasks of a failed request are dropped. *)
Definition post_generate (body : RawBody) : World -> http_response * World :=
  fun w =>
    match validate_request body with
    | None => (ResponseError 422 "Unprocessable Entity", w)
    | Some request =>
        match generate_text G request (set_tasks [] w) with
        | (Ok r, w') => (Response200 r, w')
        | (Raise (HTTPException c d), w') => (ResponseError c d, set_tasks [] w')
        | (Raise (PyError _), w') =>
            (ResponseError 500 "Internal Server Error", set_tasks [] w')
        end
    end.

End Route.

(** ** Start-up and the status endpoints *)

(** [torch.cuda] as the process sees it: whether a device is there, and
    what device 0 reports. *)
Record Cuda : Type := {
  is_available : bool;
  get_device_name : string;
  (** [get_device_properties(0).total_memory], in bytes *)
  total_memory : Z;
  memory_allocated : Z;
  memory_reserved : Z;
}.

Inductive dtype : Type := float16 | float32.

Record BitsAndBytesConfig : Type := {
  load_in_8bit : bool;
  llm_int8_enable_fp32_cpu_offload : bool;
}.

(** The keywords [model_kwargs] of [AutoModelForCausalLM.from_pretrained]. *)
Record ModelKwargs : Type := {
  mk_cache_dir : string;
  mk_torch_dtype : dtype;
  mk_quantization_config : option BitsAndBytesConfig;
}.

(** The tokenizer object as [AutoTokenizer.from_pretrained] returns it:
    what the request path uses of it, and its two special tokens. *)
Record PretrainedTokenizer : Type := {
  pt_tokenizer : Tokenizer;
  pad_token : option string;
  eos_token : option string;
}.

(** The three module-level handles, each [None] until it is assigned. *)
Record Handles : Type := {
  h_tokenizer : option PretrainedTokenizer;
  h_model : option Model;
  h_text_generator : option (string -> GenArgs -> outcome (list pydict));
}.

(** What the environment and the libraries supply at start-up. *)
Class Host : Type := {
  (** [os.getenv(name)] *)
  getenv : string -> option string;
  (** [redis.from_url(url, decode_responses=True)] *)
  redis_from_url : string -> outcome Redis;
  (** [client.ping()] *)
  redis_ping : Redis -> outcome unit;
  cuda : Cuda;
  (** the text of [bytes / 1024**3] with [digits] decimals *)
  gib_text : nat -> Z -> string;
  (** [AutoTokenizer.from_pretrained(name, padding_side='left', cache_dir=..)] *)
  tokenizer_from_pretrained : string -> outcome PretrainedTokenizer;
  (** [AutoModelForCausalLM.from_pretrained(name, **model_kwargs)] *)
  model_from_pretrained : string -> ModelKwargs -> outcome Model;
  (** [pipeline(task, model=.., tokenizer=.., torch_dtype=..)] *)
  pipeline :
    string -> Model -> PretrainedTokenizer -> dtype ->
    outcome (string -> GenArgs -> outcome (list pydict));
}.

(** [d.update(other)]: the items of [other] are assigned one by one. *)
Definition dict_update (d other : pydict) : pydict :=
  fold_left (fun acc kv => PyDict.set (fst kv) (snd kv) acc) other d.

Section Startup.

Context `{H : Host}.

(** [os.getenv(name, default)] *)
Definition getenv_default (name default : string) : string :=
  match getenv name with
  | Some v => v
  | None => default
  end.

Definition MODEL_NAME : string :=
  getenv_default "MODEL_NAME" "microsoft/DialoGPT-medium".

(** The module-level [DEVICE]. *)
Definition DEVICE_at_import : string :=
  if is_available cuda then "cuda" else "cpu".

(** The globals that the request path sees for given handles. *)
Definition globals_of (h : Handles) : Globals :=
  {| DEVICE := DEVICE_at_import;
     tokenizer := option_map pt_tokenizer (h_tokenizer h);
     model := h_model h;
     text_generator := h_text_generator h |}.

Definition no_handles : Handles :=
  {| h_tokenizer := None; h_model := None; h_text_generator := None |}.

(** The module-level block that sets [redis_client]. *)
Definition connect_cache : M unit :=
  fun w =>
    let w := set_redis None w in
    try_except
      (match getenv "CACHE_URL" with
       | Some redis_url =>
           if negb (String.eqb redis_url "") then
             let* client := lift (redis_from_url redis_url) in
             (fun w => (Ok tt, set_redis (Some client) w));;
             lift (redis_ping client);;
             log INFO "Redis cache connected"
           else ret tt
       | None => ret tt
       end)
      (fun e => log WARNING ("Redis not available: " +:+ exn_str e))
      w.

(** The [torch_dtype] chosen for a device. *)
Definition dtype_for (device : string) : dtype :=
  if String.eqb device "cuda" then float16 else float32.

(** The dict [model_kwargs] as [initialize_model] builds it. *)
Definition model_kwargs_for (device : string) : ModelKwargs :=
  {| mk_cache_dir := "/tmp/.transformers";
     mk_torch_dtype := dtype_for device;
     mk_quantization_config :=
       if String.eqb device "cuda"
       then Some {| load_in_8bit := true;
                    llm_int8_enable_fp32_cpu_offload := true |}
       else None |}.

(** [tokenizer.pad_token = tokenizer.eos_token] when no pad token is set. *)
Definition with_pad_token (t : PretrainedTokenizer) : PretrainedTokenizer :=
  match pad_token t with
  | Some _ => t
  | None => {| pt_tokenizer := pt_tokenizer t; pad_token := eos_token t;
               eos_token := eos_token t |}
  end.

(** [initialize_model()], on the handles and the world: each handle is
    assigned as soon as its loader returns; a loader that raises is logged
    and the exception goes on to the caller. *)
Definition initialize_model (h : Handles) (w : World)
  : outcome unit * Handles * World :=
  let w :=
    snd (log INFO ("Initializing model " +:+ MODEL_NAME +:+ " on "
                   +:+ DEVICE_at_import) w) in
  let w :=
    if is_available cuda then
      snd (log INFO ("GPU: " +:+ get_device_name cuda +:+ ", Memory: "
                     +:+ gib_text 1 (total_memory cuda) +:+ "GB") w)
    else w in
  let failed (e : exn) (h : Handles) :=
    (Raise e, h,
     snd (log ERROR ("Model initialization failed: " +:+ exn_str e) w)) in
  match tokenizer_from_pretrained MODEL_NAME with
  | Raise e => failed e h
  | Ok t =>
      let t := with_pad_token t in
      let h1 := {| h_tokenizer := Some t; h_model := h_model h;
                   h_text_generator := h_text_generator h |} in
      match model_from_pretrained MODEL_NAME
              (model_kwargs_for DEVICE_at_import) with
      | Raise e => failed e h1
      | Ok m =>
          let h2 := {| h_tokenizer := Some t; h_model := Some m;
                       h_text_generator := h_text_generator h |} in
          match pipeline "text-generation" m t (dtype_for DEVICE_at_import) with
          | Raise e => failed e h2
          | Ok g =>
              (Ok tt,
               {| h_tokenizer := Some t; h_model := Some m;
                  h_text_generator := Some g |},
               snd (log INFO "Model initialized successfully" w))
          end
      end
  end.

(** [startup_event()] *)
Definition startup_event (h : Handles) (w : World)
  : outcome unit * Handles * World :=
  initialize_model h w.

Definition is_not_None {A} (o : option A) : bool :=
  match o with Some _ => true | None => false end.

(** [health_check()] *)
Definition health_check (G : Globals) (w : World) : pydict :=
  let health :=
    [ ("status", JStr "healthy");
      ("model", JStr MODEL_NAME);
      ("device", JStr (DEVICE G));
      ("gpu_available", JBool (is_available cuda));
      ("model_loaded", JBool (is_not_None (model G)));
      ("cache_available", JBool (is_not_None (redis_client w))) ] in
  if is_available cuda then
    dict_update health
      [ ("gpu_name", JStr (get_device_name cuda));
        ("gpu_memory_allocated",
         JStr (gib_text 2 (memory_allocated cuda) +:+ "GB"));
        ("gpu_memory_reserved",
         JStr (gib_text 2 (memory_reserved cuda) +:+ "GB")) ]
  else health.

(** [root()] *)
Definition root (G : Globals) : pydict :=
  [ ("message", JStr "LLM API");
    ("version", JStr "1.0.0");
    ("model", JStr MODEL_NAME);
    ("device", JStr (DEVICE G));
    ("endpoints",
     JDict [ ("generate", JStr "/generate");
             ("health", JStr "/health");
             ("metrics", JStr "/metrics") ]) ].

(** [metrics()] *)
Definition metrics (G : Globals) : pydict :=
  let data :=
    [ ("model", JStr MODEL_NAME);
      ("device", JStr (DEVICE G));
      ("requests_cached", JInt 0) ] in
  if is_available cuda then
    dict_update data
      [ ("gpu_memory_used",
         JStr (gib_text 2 (memory_allocated cuda) +:+ "GB"));
        ("gpu_temperature", JStr "N/A") ]
  else data.

End Startup.

(** ** The client script [test_api.py]

    The script talks to the service over HTTP and prints what it sees.
    Its world is the standard output (one string per [print], in UTF-8),
    the requests sent so far, the clock and the pauses. *)

Module TestApi.

(** An exception in the script: a [requests.exceptions.Timeout] or any
    other [Exception], with its [str(e)]. *)
Inductive failure : Type :=
| Timeout (message : string)
| Other (message : string).

Definition failure_str (e : failure) : string :=
  match e with
  | Timeout m => m
  | Other m => m
  end.

Inductive result (A : Type) : Type :=
| Returns (a : A)
| Raises (e : failure).
Arguments Returns {A} a.
Arguments Raises {A} e.

(** A call of [requests.get] or [requests.post]. *)
Inductive Request : Type :=
| GET (url : string) (timeout : Z)
| POST (url : string) (json : pydict) (headers : list (string * string))
    (timeout : Z).

(** A [requests.Response]: the status, [response.json()], [response.text]. *)
Record Reply : Type := {
  status_code : Z;
  json : result jvalue;
  text : string;
}.

(** What the interpreter, the clock and the network supply. *)
Class Env : Type := {
  (** [str(v)] as an f-string renders a value *)
  py_str : jvalue -> string;
  (** [format(x, ".2f")] of a float *)
  fmt_2f : float -> string;
  (** [format(v, ".2f")] of a value taken from a reply *)
  fmt_2f_value : jvalue -> result string;
  (** [v[:100]] of a value taken from a reply *)
  slice_100 : jvalue -> result jvalue;
  (** the [n]-th reading of [time.time()] *)
  time_at : nat -> float;
  (** the answer to a request, given the requests sent before it *)
  http : list Request -> Request -> result Reply;
}.

Record Console : Type := {
  stdout : list string;
  sent : list Request;
  readings : nat;
  slept : list Z;
}.

Definition T (A : Type) : Type := Console -> result A * Console.

Definition ret {A} (a : A) : T A := fun c => (Returns a, c).

Definition bind {A B} (m : T A) (k : A -> T B) : T B :=
  fun c =>
    match m c with
    | (Returns a, c') => k a c'
    | (Raises e, c') => (Raises e, c')
    end.

Definition lift {A} (r : result A) : T A := fun c => (r, c).

(** [try: m except Exception as e: h e] *)
Definition try_except {A} (m : T A) (h : failure -> T A) : T A :=
  fun c =>
    match m c with
    | (Returns a, c') => (Returns a, c')
    | (Raises e, c') => h e c'
    end.

Notation "'do' x '<-' m ';' k" := (bind m (fun x => k))
  (at level 10, x name, m at level 100, k at level 200).
Notation "m '>>' k" := (bind m (fun _ => k))
  (at level 100, k at level 200, right associativity).

Definition print (line : string) : T unit :=
  fun c => (Returns tt,
            {| stdout := stdout c ++ [line]; sent := sent c;
               readings := readings c; slept := slept c |}).

Section Script.

Context `{E : Env}.

(** [time.time()] *)
Definition time_time : T float :=
  fun c => (Returns (time_at (readings c)),
            {| stdout := stdout c; sent := sent c;
               readings := S (readings c); slept := slept c |}).

(** [time.sleep(seconds)] *)
Definition time_sleep (seconds : Z) : T unit :=
  fun c => (Returns tt,
            {| stdout := stdout c; sent := sent c;
               readings := readings c; slept := slept c ++ [seconds] |}).

(** One call into [requests]: the request is recorded, then answered. *)
Definition send (r : Request) : T Reply :=
  fun c => (http (sent c) r,
            {| stdout := stdout c; sent := sent c ++ [r];
               readings := readings c; slept := slept c |}).

Definition nl : string := String (ascii_of_nat 10) "".

(** The receiver of [.get] must be a dict: any other value has no such
    attribute. *)
Definition as_dict (v : jvalue) : result pydict :=
  match v with
  | JDict d => Returns d
  | JList _ => Raises (Other "'list' object has no attribute 'get'")
  | JStr _ => Raises (Other "'str' object has no attribute 'get'")
  | JInt _ => Raises (Other "'int' object has no attribute 'get'")
  | JFloat _ => Raises (Other "'float' object has no attribute 'get'")
  | JBool _ => Raises (Other "'bool' object has no attribute 'get'")
  | JNone => Raises (Other "'NoneType' object has no attribute 'get'")
  end.

(** [d.get(key)] and [d.get(key, default)] *)
Definition get_or (d : pydict) (key : string) (default : jvalue) : jvalue :=
  match PyDict.get key d with
  | Some v => v
  | None => default
  end.

(** [key in d] *)
Definition has_key (d : pydict) (key : string) : bool :=
  match PyDict.get key d with
  | Some _ => true
  | None => false
  end.

Definition json_headers : list (string * string) :=
  [("Content-Type", "application/json")].

(** The three entries of [test_prompts]. *)
Definition test_prompts : list pydict :=
  [ [ ("prompt", JStr "The future of artificial intelligence is");
      ("max_new_tokens", JInt 30); ("temperature", JFloat 0.7) ];
    [ ("prompt", JStr "Hello, how are you?");
      ("max_new_tokens", JInt 20); ("temperature", JFloat 0.8) ];
    [ ("prompt", JStr "Write a short poem about the ocean:");
      ("max_new_tokens", JInt 50); ("temperature", JFloat 1.0) ] ].

Definition cache_test : pydict :=
  [ ("prompt", JStr "Testing cache functionality");
    ("max_new_tokens", JInt 25); ("temperature", JFloat 0.7) ].

(** [test_case['prompt'][:30]] for an entry of [test_prompts]. *)
Definition prompt_head (test_case : pydict) : string :=
  match PyDict.get "prompt" test_case with
  | Some (JStr p) => substring 0 30 p
  | _ => ""
  end.

(** Step 1: the health check. [Returns false] stands for the early
    [return False]. *)
Definition check_health (base_url : string) : T bool :=
  print (nl +:+ "1. Testing health endpoint...") >>
  try_except
    (do response <- send (GET (base_url +:+ "/health") 30);
     if status_code response =? 200 then
       do health_data <- lift (json response);
       print "✅ Health check passed" >>
       do d <- lift (as_dict health_data);
       print ("   Model: " +:+ py_str (get_or d "model" JNone)) >>
       print ("   Device: " +:+ py_str (get_or d "device" JNone)) >>
       print ("   GPU Available: "
              +:+ py_str (get_or d "gpu_available" JNone)) >>
       (if truthy (get_or d "gpu_name" JNone)
        then print ("   GPU: " +:+ py_str (get_or d "gpu_name" JNone))
        else ret tt) >>
       ret true
     else
       print ("❌ Health check failed: " +:+ pretty (status_code response)) >>
       ret false)
    (fun e =>
       print ("❌ Health check error: " +:+ failure_str e) >>
       ret false).

(** Step 2: the root endpoint. *)
Definition check_root (base_url : string) : T unit :=
  print (nl +:+ "2. Testing root endpoint...") >>
  try_except
    (do response <- send (GET (base_url +:+ "/") 10);
     if status_code response =? 200 then
       print "✅ Root endpoint working"
     else
       print ("❌ Root endpoint failed: " +:+ pretty (status_code response)))
    (fun e => print ("❌ Root endpoint error: " +:+ failure_str e)).

(** Step 3: the metrics endpoint. *)
Definition check_metrics (base_url : string) : T unit :=
  print (nl +:+ "3. Testing metrics endpoint...") >>
  try_except
    (do response <- send (GET (base_url +:+ "/metrics") 10);
     if status_code response =? 200 then
       do metrics <- lift (json response);
       print "✅ Metrics endpoint working" >>
       do d <- lift (as_dict metrics);
       print ("   Device: " +:+ py_str (get_or d "device" JNone)) >>
       (if has_key d "gpu_memory_used"
        then print ("   GPU Memory: "
                    +:+ py_str (get_or d "gpu_memory_used" JNone))
        else ret tt)
     else
       print ("❌ Metrics endpoint failed: "
              +:+ pretty (status_code response)))
    (fun e => print ("❌ Metrics endpoint error: " +:+ failure_str e)).

(** One turn of the loop of step 4. *)
Definition check_generation (base_url : string) (i : Z)
    (test_case : pydict) : T unit :=
  print (nl +:+ "   Test " +:+ pretty i +:+ ": '" +:+ prompt_head test_case
         +:+ "...'") >>
  try_except
    (do start_time <- time_time;
     do response <-
       send (POST (base_url +:+ "/generate") test_case json_headers 60);
     do end_time <- time_time;
     let elapsed_time := PrimFloat.sub end_time start_time in
     if status_code response =? 200 then
       do result <- lift (json response);
       print ("   ✅ Generation successful (" +:+ fmt_2f elapsed_time
              +:+ "s)") >>
       do d <- lift (as_dict result);
       do head <- lift (slice_100 (get_or d "generated_text" (JStr "")));
       print ("   📝 Generated: " +:+ py_str head +:+ "...") >>
       print ("   🔧 Device: " +:+ py_str (get_or d "device_used" JNone)) >>
       print ("   🎯 Tokens: "
              +:+ py_str (get_or d "tokens_generated" JNone)) >>
       print ("   💾 Cached: " +:+ py_str (get_or d "cached" JNone))
     else
       print ("   ❌ Generation failed: "
              +:+ pretty (status_code response)) >>
       print ("   Error: " +:+ text response))
    (fun e =>
       match e with
       | Timeout _ => print "   ⏰ Request timed out after 60 seconds"
       | Other m => print ("   ❌ Generation error: " +:+ m)
       end).

(** Step 4: [for i, test_case in enumerate(test_prompts, 1)]. *)
Fixpoint check_generations (base_url : string) (i : Z)
    (cases : list pydict) : T unit :=
  match cases with
  | [] => ret tt
  | test_case :: rest =>
      check_generation base_url i test_case >>
      check_generations base_url (i + 1) rest
  end.

(** Step 5: the same request twice. *)
Definition check_cache (base_url : string) : T unit :=
  print (nl +:+ "5. Testing response caching...") >>
  try_except
    (print "   Making first request..." >>
     do response1 <-
       send (POST (base_url +:+ "/generate") cache_test json_headers 60);
     if status_code response1 =? 200 then
       do result1 <- lift (json response1);
       do d1 <- lift (as_dict result1);
       do t1 <- lift (fmt_2f_value (get_or d1 "processing_time" (JInt 0)));
       print ("   First request: " +:+ t1 +:+ "s") >>
       print "   Making second request (should be cached)..." >>
       time_sleep 1 >>
       do response2 <-
         send (POST (base_url +:+ "/generate") cache_test json_headers 60);
       if status_code response2 =? 200 then
         do result2 <- lift (json response2);
         do d2 <- lift (as_dict result2);
         do t2 <- lift (fmt_2f_value (get_or d2 "processing_time" (JInt 0)));
         print ("   Second request: " +:+ t2 +:+ "s") >>
         print ("   ✅ Cache working: "
                +:+ py_str (get_or d2 "cached" (JBool false)))
       else
         print ("   ❌ Second request failed: "
                +:+ pretty (status_code response2))
     else
       print ("   ❌ First request failed: "
              +:+ pretty (status_code response1)))
    (fun e => print ("   ❌ Cache test error: " +:+ failure_str e)).

(** [test_api(base_url)] *)
Definition test_api (base_url : string) : T bool :=
  print ("Testing LLM API at: " +:+ base_url) >>
  do healthy <- check_health base_url;
  if healthy then
    check_root base_url >>
    check_metrics base_url >>
    print (nl +:+ "4. Testing text generation...") >>
    check_generations base_url 1 test_prompts >>
    check_cache base_url >>
    print (nl +:+ "🎉 API testing completed!") >>
    ret true
  else ret false.

(** [s.rstrip('/')] *)
Fixpoint rstrip_slash (s : string) : string :=
  match s with
  | EmptyString => EmptyString
  | String c s' =>
      match rstrip_slash s' with
      | EmptyString =>
          if Ascii.eqb c "/" then EmptyString else String c EmptyString
      | rest => String c rest
      end
  end.

(** [s.startswith(('http://', 'https://'))] *)
Definition has_scheme (s : string) : bool :=
  String.prefix "http://" s || String.prefix "https://" s.

(** [main()] on [sys.argv]: the status of a [sys.exit], or [None] when
    the function returns. *)
Definition main (argv : list string) : Console -> option Z * Console :=
  fun c =>
    match argv with
    | [_; url] =>
        let api_url := rstrip_slash url in
        if negb (has_scheme api_url) then
          (Some 1,
           snd (print "❌ URL must start with http:// or https://" c))
        else
          (None, snd (test_api api_url c))
    | _ =>
        (Some 1,
         snd ((print "Usage: python test_api.py <API_URL>" >>
               print "Example: python test_api.py https://api.llm-api.0a1b2c3d4e5f.convox.cloud")
                c))
    end.

End Script.

End TestApi.

(** A string of [k] slashes, and whether a string ends in a slash. *)
Fixpoint slashes (k : nat) : string :=
  match k with
  | O => EmptyString
  | S k' => String "/" (slashes k')
  end.

Fixpoint ends_in_slash (s : string) : bool :=
  match s with
  | EmptyString => false
  | String c EmptyString => Ascii.eqb c "/"
  | String _ s' => ends_in_slash s'
  end.

(** The answer to the health request passes the check of the script: it
    came, with status 200 and a JSON object as body. *)
Definition health_passes (r : TestApi.result TestApi.Reply) : bool :=
  match r with
  | TestApi.Returns reply =>
      (TestApi.status_code reply =? 200)
      && match TestApi.json reply with
         | TestApi.Returns (JDict _) => true
         | _ => false
         end
  | TestApi.Raises _ => false
  end.

(** The answer to the first request of the cache test lets the script go
    on to the second: status 200, a JSON object as body, and a
    [processing_time] in it (or the default 0) that formats as a number. *)
Definition second_follows `{E : TestApi.Env}
    (r : TestApi.result TestApi.Reply) : bool :=
  match r with
  | TestApi.Returns reply =>
      (TestApi.status_code reply =? 200)
      && match TestApi.json reply with
         | TestApi.Returns (JDict d) =>
             match TestApi.fmt_2f_value
                     (TestApi.get_or d "processing_time" (JInt 0)) with
             | TestApi.Returns _ => true
             | TestApi.Raises _ => false
             end
         | _ => false
         end
  | TestApi.Raises _ => false
  end.

(** The requests of a full run of the script up to the cache test. *)
Definition first_six (base_url : string) : list TestApi.Request :=
  [ TestApi.GET (base_url +:+ "/health") 30;
    TestApi.GET (base_url +:+ "/") 10;
    TestApi.GET (base_url +:+ "/metrics") 10 ]
  ++ map (fun test_case =>
            TestApi.POST (base_url +:+ "/generate") test_case
              TestApi.json_headers 60)
       TestApi.test_prompts.

Definition cache_request (base_url : string) : TestApi.Request :=
  TestApi.POST (base_url +:+ "/generate") TestApi.cache_test
    TestApi.json_headers 60.

(** The handles are set in the order in which [initialize_model] assigns
    them: a model only with a tokenizer, a pipeline only with a model. *)
Definition handles_in_order (h : Handles) : Prop :=
  (h_model h ≠ None → h_tokenizer h ≠ None)
  ∧ (h_text_generator h ≠ None → h_model h ≠ None).

(** No command is ever failed by the server. *)
Definition store_up (w : World) : Prop :=
  ∃ r0, redis_client w = Some r0 ∧ ∀ n, r_fault r0 n = None.

(** A float that is a number: neither NaN nor an infinity. *)
Definition is_number (x : float) : Prop :=
  x ≠ nan ∧ x ≠ infinity ∧ x ≠ neg_infinity.

(** ** The vocabulary of the properties *)

Section Vocabulary.

Context `{RT : Runtime}.
Variable G : Globals.

(** The serialized [cache_params] of a request, field by field. *)
Definition params_text (r : GenerationRequest.t) : string :=
  (Json.quote "do_sample" +:+ ": ")
  +:+ (if GenerationRequest.do_sample r then "true" else "false")
  +:+ String "," ((" " +:+ Json.quote "max_new_tokens" +:+ ": ")
  +:+ pretty (GenerationRequest.max_new_tokens r)
  +:+ String "," ((" " +:+ Json.quote "temperature" +:+ ": ")
  +:+ float_repr (GenerationRequest.temperature r)
  +:+ String "," ((" " +:+ Json.quote "top_p" +:+ ": ")
  +:+ float_repr (GenerationRequest.top_p r)
  +:+ String "}" ""))).

(** Two requests agree on everything the cache key is derived from. *)
Definition same_key_fields (r1 r2 : GenerationRequest.t) : Prop :=
  GenerationRequest.prompt r1 = GenerationRequest.prompt r2
  ∧ GenerationRequest.max_new_tokens r1 = GenerationRequest.max_new_tokens r2
  ∧ GenerationRequest.temperature r1 = GenerationRequest.temperature r2
  ∧ GenerationRequest.top_p r1 = GenerationRequest.top_p r2
  ∧ GenerationRequest.do_sample r1 = GenerationRequest.do_sample r2.

(** The engine is ready: the two handles that the handler tests are set. *)
Definition ready : Prop := model G ≠ None ∧ tokenizer G ≠ None.

(** The key of a request. *)
Definition key_of (request : GenerationRequest.t) : string :=
  get_cache_key (GenerationRequest.prompt request) (cache_params request).

(** The two readings of the clock in one request. *)
Definition started (w : World) : float := clock w (ticks w).
Definition finished (w : World) : float := clock w (S (ticks w)).
Definition elapsed (w : World) : float := PrimFloat.sub (finished w) (started w).

(** What the gateway answers to the read of a request, and the world
    after that read. *)
Definition cache_read (request : GenerationRequest.t) (w : World)
  : outcome jvalue * World :=
  get_cached_response (key_of request) (set_ticks (S (ticks w)) w).

(** The calls into the engine of one generation, in the order of the
    handler: the pipeline, its first result, the text, the token count. *)
Definition engine_run (tok : Tokenizer) (request : GenerationRequest.t)
  : outcome (jvalue * Z) :=
  match call_text_generator G (GenerationRequest.prompt request)
          (gen_args tok request) with
  | Raise e => Raise e
  | Ok results =>
      match first_item results with
      | Raise e => Raise e
      | Ok result =>
          match getitem result "generated_text" with
          | Raise e => Raise e
          | Ok text =>
              match encode tok text with
              | Raise e => Raise e
              | Ok ids => Ok (text, Z.of_nat (length ids))
              end
          end
      end
  end.

(** The task that a generation schedules. *)
Definition write_task (request : GenerationRequest.t) (text : jvalue)
    (t : float) (tokens : Z) : Task :=
  {| task_key := key_of request;
     task_response := response_dict G request text t tokens;
     task_ttl := 3600 |}.

(** The world after a generation: the clock read once more, the task
    added, the summary logged. *)
Definition after_generation (request : GenerationRequest.t) (text : jvalue)
    (t : float) (tokens : Z) (w1 : World) : World :=
  set_logger
    (logger w1 ++ [(INFO, "Generated " +:+ pretty tokens +:+ " tokens in "
                          +:+ format_2f t +:+ "s")])
    (set_tasks (background_tasks w1 ++ [write_task request text t tokens])
       (set_ticks (S (ticks w1)) w1)).

(** Between [w] and [w'] the store saw the read of the request and nothing
    else: no client stays no client, and a client gets one [GET] for the key
    of the request while its entries stay as they are. *)
Definition only_read (request : GenerationRequest.t) (w w' : World) : Prop :=
  match redis_client w with
  | None => redis_client w' = None
  | Some r0 =>
      ∃ r1, redis_client w' = Some r1
            ∧ r_ops r1 = r_ops r0 ++ [OpGet (key_of request)]
            ∧ r_data r1 = r_data r0
            ∧ r_fault r1 = r_fault r0
  end.


(** [hay] holds a stretch of text whose lower-case form is [needle]. *)
Definition occurs_any_case (needle hay : string) : Prop :=
  ∃ pre mid post, hay = pre +:+ mid +:+ post ∧ PyStr.lower mid = needle.

(** A validated field [x] against the body: the default when the body has
    no value, else the value of the body, which must be in range. *)
Definition field_ok {A} (v : option A) (default : A) (in_range : A → Prop)
    (x : A) : Prop :=
  match v with
  | None => x = default
  | Some y => x = y ∧ in_range y
  end.

Definition between (lo hi : float) (x : float) : Prop :=
  PrimFloat.leb lo x = true ∧ PrimFloat.leb x hi = true.

(** The constraints that [GenerationRequest] declares, field by field. *)
Definition valid_fields (b : RawBody) (r : GenerationRequest.t) : Prop :=
  (rb_prompt b = Some (GenerationRequest.prompt r)
   ∧ (1 ≤ String.length (GenerationRequest.prompt r) ≤ 2000)%nat)
  ∧ field_ok (rb_max_new_tokens b) 100 (λ n, 1 ≤ n ≤ 500)
      (GenerationRequest.max_new_tokens r)
  ∧ field_ok (rb_temperature b) 0.7%float (between 0.1 2.0)
      (GenerationRequest.temperature r)
  ∧ field_ok (rb_top_p b) 0.9%float (between 0.1 1.0)
      (GenerationRequest.top_p r)
  ∧ field_ok (rb_do_sample b) true (λ _, True) (GenerationRequest.do_sample r)
  ∧ field_ok (rb_stream b) false (λ _, True) (GenerationRequest.stream r).

End Vocabulary.

(** ** A concrete deployment, used to run the definitions *)

Module Sample.

(** A float printed from its sign, mantissa and exponent. *)
Definition float_text (f : float) : string :=
  match Prim2SF f with
  | S754_zero s => if s then "-0.0" else "0.0"
  | S754_infinity s => if s then "-Infinity" else "Infinity"
  | S754_nan => "NaN"
  | S754_finite s m e =>
      (if s then "-" else "+") +:+ pretty (Zpos m) +:+ "p" +:+ pretty e
  end.

(** A stored payload as this service writes it, and its parse. *)
Definition stored_dict : pydict :=
  [ ("prompt", JStr "ping");
    ("generated_text", JStr "pong");
    ("processing_time", JFloat 9.5);
    ("device_used", JStr "cuda");
    ("cached", JBool false);
    ("tokens_generated", JInt 1) ].

(** Two payloads of another writer: one gives the count of tokens as a
    text, the other is an object with none of the fields. *)
Definition texty_dict : pydict :=
  [ ("prompt", JStr "ping");
    ("generated_text", JStr "pong");
    ("processing_time", JFloat 9.5);
    ("device_used", JStr "cuda");
    ("cached", JBool false);
    ("tokens_generated", JStr "7") ].

Definition foreign_dict : pydict := [ ("foo", JInt 1) ].

Definition loads (s : string) : outcome jvalue :=
  if String.eqb s "stored" then Ok (JDict stored_dict)
  else if String.eqb s "[1]" then Ok (JList [JInt 1])
  else if String.eqb s (Json.dumps float_text false (JDict texty_dict))
  then Ok (JDict texty_dict)
  else if String.eqb s (Json.dumps float_text false (JDict foreign_dict))
  then Ok (JDict foreign_dict)
  else Raise (PyError "Expecting value: line 1 column 1 (char 0)").

(** The conversions of the default mode, as far as the samples go: an
    [int] field takes an [int], a [bool] and a decimal text, a [float]
    field a [float], a [bool] field a [bool] and the integers 0 and 1. *)
Definition to_int (v : jvalue) : option Z :=
  match v with
  | JInt n => Some n
  | JBool b => Some (if b then 1 else 0)
  | JStr s => option_map Z.of_int (NilZero.int_of_string s)
  | _ => None
  end.

Definition to_float (v : jvalue) : option float :=
  match v with
  | JFloat x => Some x
  | _ => None
  end.

Definition to_bool (v : jvalue) : option bool :=
  match v with
  | JBool b => Some b
  | JInt 0 => Some false
  | JInt 1 => Some true
  | _ => None
  end.

(** The digest is replaced by the identity, which has no collisions. *)
#[export] Instance runtime : Runtime := {|
  float_repr := float_text;
  format_2f := float_text;
  md5_hexdigest := fun s => s;
  json_loads := loads;
  validation_error := fun _ => "validation error for GenerationResponse";
  pydantic_int := to_int;
  pydantic_float := to_float;
  pydantic_bool := to_bool;
  pydantic_int_int := fun _ => eq_refl;
  pydantic_float_float := fun _ => eq_refl;
  pydantic_bool_bool := fun _ => eq_refl;
|}.

Definition tok : Tokenizer :=
  {| eos_token_id := Some 50256;
     encode := fun v =>
       match v with
       | JStr s => Ok (repeat 7 (String.length s))
       | _ => Raise (PyError "text input must be of type str")
       end |}.

(** An engine that answers ["pong"], runs out of memory on the prompt
    ["big"] and fails otherwise on the prompt ["bad"]. *)
Definition pipeline (prompt : string) (a : GenArgs) : outcome (list pydict) :=
  if String.eqb prompt "big"
  then Raise (PyError "CUDA Out Of Memory. Tried to allocate 2.00 GiB")
  else if String.eqb prompt "bad"
  then Raise (PyError "index out of range in self")
  else Ok [[("generated_text", JStr "pong")]].

Definition loaded : Globals :=
  {| DEVICE := "cuda"; tokenizer := Some tok; model := Some LoadedModel;
     text_generator := Some pipeline |}.

Definition unloaded : Globals :=
  {| DEVICE := "cuda"; tokenizer := None; model := None;
     text_generator := None |}.

Definition request : GenerationRequest.t :=
  {| GenerationRequest.prompt := "ping";
     GenerationRequest.max_new_tokens := 100;
     GenerationRequest.temperature := 0.7;
     GenerationRequest.top_p := 0.9;
     GenerationRequest.do_sample := true;
     GenerationRequest.stream := false |}.

Definition request_for (p : string) : GenerationRequest.t :=
  {| GenerationRequest.prompt := p;
     GenerationRequest.max_new_tokens := 100;
     GenerationRequest.temperature := 0.7;
     GenerationRequest.top_p := 0.9;
     GenerationRequest.do_sample := true;
     GenerationRequest.stream := false |}.

Definition key : string :=
  get_cache_key (GenerationRequest.prompt request) (cache_params request).

Definition redis_with (data : gmap string (Z * string))
    (fault : nat -> option string) : Redis :=
  {| r_data := data; r_ops := []; r_fault := fault |}.

Definition world_with (r : option Redis) : World :=
  {| clock := fun n => PrimFloat.of_uint63 (Uint63.of_Z (Z.of_nat (10 + 3 * n)));
     ticks := 0; redis_client := r; logger := []; background_tasks := [] |}.

(** An empty store, a store holding the entry of [request], a store whose
    entry does not parse, a server that fails every command, and no
    store at all. *)
Definition cold : World := world_with (Some (redis_with ∅ (fun _ => None))).
Definition warm : World :=
  world_with (Some (redis_with {[ key := (3600, "stored") ]} (fun _ => None))).
Definition garbled : World :=
  world_with (Some (redis_with {[ key := (3600, "{oops") ]} (fun _ => None))).
Definition disabled : World := world_with None.

(** Stores whose entry for [request] was written by another writer. *)
Definition texty : World :=
  world_with
    (Some (redis_with
             {[ key := (3600, Json.dumps float_text false (JDict texty_dict)) ]}
             (fun _ => None))).

(** The same request with [stream] set. *)
Definition streamed : GenerationRequest.t :=
  {| GenerationRequest.prompt := "ping";
     GenerationRequest.max_new_tokens := 100;
     GenerationRequest.temperature := 0.7;
     GenerationRequest.top_p := 0.9;
     GenerationRequest.do_sample := true;
     GenerationRequest.stream := true |}.

(** The parameters of [request] with the fields in another order. *)
Definition params_reordered : pydict :=
  [ ("do_sample", JBool true); ("top_p", JFloat 0.9);
    ("temperature", JFloat 0.7); ("max_new_tokens", JInt 100) ].

(** The body that validates to [request], and three that do not. *)
Definition body : RawBody :=
  {| rb_prompt := Some "ping"; rb_max_new_tokens := None;
     rb_temperature := None; rb_top_p := None; rb_do_sample := None;
     rb_stream := None |}.



(** What [request] is answered from the empty store and from the store
    that holds its entry. *)
Definition cold_response : GenerationResponse.t :=
  {| GenerationResponse.prompt := "ping";
     GenerationResponse.generated_text := "pong";
     GenerationResponse.processing_time := 3;
     GenerationResponse.device_used := "cuda";
     GenerationResponse.cached := false;
     GenerationResponse.tokens_generated := 4 |}.

(** What it is answered from the entry that counts the tokens in a text. *)
Definition texty_response : GenerationResponse.t :=
  {| GenerationResponse.prompt := "ping";
     GenerationResponse.generated_text := "pong";
     GenerationResponse.processing_time := 3;
     GenerationResponse.device_used := "cuda";
     GenerationResponse.cached := true;
     GenerationResponse.tokens_generated := 7 |}.

Definition warm_response : GenerationResponse.t :=
  {| GenerationResponse.prompt := "ping";
     GenerationResponse.generated_text := "pong";
     GenerationResponse.processing_time := 3;
     GenerationResponse.device_used := "cuda";
     GenerationResponse.cached := true;
     GenerationResponse.tokens_generated := 1 |}.

End Sample.

(** ** A concrete host and a concrete script environment *)

Module SampleHost.

Definition pretrained : PretrainedTokenizer :=
  {| pt_tokenizer := Sample.tok; pad_token := None;
     eos_token := Some "<|endoftext|>" |}.

(** A host with a GPU and a cache URL whose server does not answer the
    ping. *)
#[export] Instance host : Host := {|
  getenv := fun name =>
    if String.eqb name "CACHE_URL" then Some "redis://cache:6379" else None;
  redis_from_url := fun _ => Ok (Sample.redis_with ∅ (fun _ => None));
  redis_ping := fun _ => Raise (PyError "Connection refused");
  cuda := {| is_available := true; get_device_name := "Tesla T4";
             total_memory := 16106127360; memory_allocated := 2147483648;
             memory_reserved := 3221225472 |};
  gib_text := fun _ bytes => pretty (bytes / 1073741824);
  tokenizer_from_pretrained := fun _ => Ok pretrained;
  model_from_pretrained := fun _ _ => Ok LoadedModel;
  pipeline := fun _ _ _ _ => Ok Sample.pipeline;
|}.

Definition loaded_handles : Handles :=
  {| h_tokenizer := Some (with_pad_token pretrained);
     h_model := Some LoadedModel;
     h_text_generator := Some Sample.pipeline |}.

(** A process as ready as [Sample.loaded] whose pipeline always fails. *)
Definition broken_engine : Globals :=
  {| DEVICE := "cpu"; tokenizer := Some Sample.tok;
     model := Some LoadedModel;
     text_generator := Some (fun _ _ => Raise (PyError "no engine")) |}.

(** A store whose entry for [Sample.request] parses to a list. *)
Definition listed : World :=
  Sample.world_with
    (Some (Sample.redis_with {[ Sample.key := (3600, "[1]") ]}
             (fun _ => None))).

(** The dict that the first answer to [Sample.request] is written from,
    and a runtime whose parser gives it back from its serialized text. *)
Definition cold_dict : pydict :=
  response_dict Sample.loaded Sample.request (JStr "pong") 3 4.

#[export] Instance replay_runtime : Runtime := {|
  float_repr := Sample.float_text;
  format_2f := Sample.float_text;
  md5_hexdigest := fun s => s;
  json_loads := fun s =>
    if String.eqb s (Json.dumps Sample.float_text false (JDict cold_dict))
    then Ok (JDict cold_dict)
    else Raise (PyError "Expecting value: line 1 column 1 (char 0)");
  validation_error := fun _ => "validation error for GenerationResponse";
  pydantic_int := Sample.to_int;
  pydantic_float := Sample.to_float;
  pydantic_bool := Sample.to_bool;
  pydantic_int_int := fun _ => eq_refl;
  pydantic_float_float := fun _ => eq_refl;
  pydantic_bool_bool := fun _ => eq_refl;
|}.

(** A server as the script sees it: every [GET] is answered 200 with a
    JSON object, every [POST] times out. *)
#[export] Instance env : TestApi.Env := {|
  TestApi.py_str := fun v =>
    match v with
    | JStr s => s
    | JInt z => pretty z
    | JBool true => "True"
    | JBool false => "False"
    | JNone => "None"
    | _ => "?"
    end;
  TestApi.fmt_2f := Sample.float_text;
  TestApi.fmt_2f_value := fun v =>
    match v with
    | JFloat f => TestApi.Returns (Sample.float_text f)
    | JInt z => TestApi.Returns (pretty z)
    | _ => TestApi.Raises (TestApi.Other "unsupported format string")
    end;
  TestApi.slice_100 := fun v =>
    match v with
    | JStr s => TestApi.Returns (JStr (substring 0 100 s))
    | _ => TestApi.Raises (TestApi.Other "object is not subscriptable")
    end;
  TestApi.time_at := fun n => PrimFloat.of_uint63 (Uint63.of_Z (Z.of_nat n));
  TestApi.http := fun _ r =>
    match r with
    | TestApi.GET _ _ =>
        TestApi.Returns
          {| TestApi.status_code := 200;
             TestApi.json := TestApi.Returns (JDict [("device", JStr "cuda")]);
             TestApi.text := "" |}
    | TestApi.POST _ _ _ _ => TestApi.Raises (TestApi.Timeout "timed out")
    end;
|}.

Definition console : TestApi.Console :=
  {| TestApi.stdout := []; TestApi.sent := []; TestApi.readings := 0;
     TestApi.slept := [] |}.

End SampleHost.

(** * Properties *)

(** ** Ordering the items of a dict *)

Section Sorting.

Context {A : Type}.
Implicit Types (x : string * A) (l : list (string * A)).

#[local] Instance key_le_trans : Transitive (@Json.key_le A).
Proof. intros x y z. unfold Json.key_le. apply transitivity. Qed.

Lemma insert_item_perm x l : Json.insert_item x l ≡ₚ x :: l.
Proof.
  induction l as [|y l IH]; simpl; [done|].
  destruct (String.leb x.1 y.1); [done|].
  rewrite IH. apply Permutation_swap.
Qed.

Lemma sort_items_perm l : Json.sort_items l ≡ₚ l.
Proof.
  induction l as [|x l IH]; simpl; [done|].
  by rewrite insert_item_perm, IH.
Qed.

Lemma insert_item_sorted x l :
  Sorted Json.key_le l → Sorted Json.key_le (Json.insert_item x l).
Proof.
  induction 1 as [|y l Hl IH Hy]; simpl.
  { repeat constructor. }
  destruct (String.leb x.1 y.1) eqn:Hxy.
  { constructor; [by constructor|]. constructor.
    unfold Json.key_le, String.le. by rewrite Hxy. }
  assert (Json.key_le y x) as Hyx.
  { unfold Json.key_le, String.le.
    destruct (String.leb_total x.1 y.1) as [E|E]; [congruence|by rewrite E]. }
  constructor; [done|].
  destruct Hy as [|z l Hz]; simpl.
  { by constructor. }
  destruct (String.leb x.1 z.1); by constructor.
Qed.

Lemma sort_items_sorted l : Sorted Json.key_le (Json.sort_items l).
Proof.
  induction l; simpl; [constructor|]. by apply insert_item_sorted.
Qed.

(** Within a list whose keys are distinct, the key names the item. *)
Lemma item_of_key l x y :
  NoDup (map fst l) → x ∈ l → y ∈ l → x.1 = y.1 → x = y.
Proof.
  induction l as [|z l IH]; simpl; intros Hnd Hx Hy E.
  { by apply elem_of_nil in Hx. }
  apply NoDup_cons in Hnd as [Hz Hnd].
  assert (∀ u, u ∈ l → u.1 ≠ z.1) as Hfresh.
  { intros u Hu Eu. apply Hz. rewrite <-Eu.
    apply list_elem_of_In, in_map, list_elem_of_In, Hu. }
  apply elem_of_cons in Hx as [->|Hx]; apply elem_of_cons in Hy as [->|Hy].
  - done.
  - destruct (Hfresh y Hy). done.
  - destruct (Hfresh x Hx). done.
  - by apply IH.
Qed.

(** Two lists with the same items and distinct keys sort to one list. *)
Lemma sort_items_unique l1 l2 :
  NoDup (map fst l1) → l1 ≡ₚ l2 → Json.sort_items l1 = Json.sort_items l2.
Proof.
  intros Hnd Hp.
  apply (Sorted_unique_strong Json.key_le); try apply sort_items_sorted.
  - intros x y Hx Hy Hxy Hyx.
    rewrite sort_items_perm in Hx. rewrite sort_items_perm, <-Hp in Hy.
    apply (item_of_key l1); [done..|].
    by apply (anti_symm String.le).
  - by rewrite !sort_items_perm.
Qed.

End Sorting.

(** ** Splitting strings at a character *)

Section StringFacts.

Import PyStr.

Lemma has_char_app c (a b : string) :
  has_char c (a +:+ b) = has_char c a || has_char c b.
Proof.
  induction a as [|x a IH]; simpl; [done|].
  by rewrite IH, orb_assoc.
Qed.

Lemma has_char_cons c d (s : string) :
  has_char c (String d s) = Ascii.eqb c d || has_char c s.
Proof. reflexivity. Qed.

(** A text is cut in one way only at the last occurrence of [c]. *)
Lemma split_last c (a1 b1 a2 b2 : string) :
  has_char c b1 = false → has_char c b2 = false →
  a1 +:+ String c b1 = a2 +:+ String c b2 → a1 = a2 ∧ b1 = b2.
Proof.
  revert a2. induction a1 as [|x a1 IH]; intros [|y a2] H1 H2 E;
    simpl in E.
  - by injection E.
  - injection E as ? ?; subst.
    rewrite has_char_app in H1. simpl in H1.
    rewrite Ascii.eqb_refl, orb_true_r in H1. done.
  - injection E as ? ?; subst.
    rewrite has_char_app in H2. simpl in H2.
    rewrite Ascii.eqb_refl, orb_true_r in H2. done.
  - injection E as -> E. by destruct (IH a2 H1 H2 E) as [-> ->].
Qed.

(** And in one way only at the first occurrence of [c]. *)
Lemma split_first c (a1 b1 a2 b2 : string) :
  has_char c a1 = false → has_char c a2 = false →
  a1 +:+ String c b1 = a2 +:+ String c b2 → a1 = a2 ∧ b1 = b2.
Proof.
  revert a2. induction a1 as [|x a1 IH]; intros [|y a2] H1 H2 E;
    simpl in *.
  - by injection E.
  - injection E as ? _; subst. by rewrite Ascii.eqb_refl in H2.
  - injection E as ? _; subst. by rewrite Ascii.eqb_refl in H1.
  - injection E as -> E.
    apply orb_false_iff in H1 as [_ H1]. apply orb_false_iff in H2 as [_ H2].
    by destruct (IH a2 H1 H2 E) as [-> ->].
Qed.

Lemma app_char_inj c (a b : string) :
  a +:+ String c "" = b +:+ String c "" → a = b.
Proof. intros E. by apply (split_last c a "" b "") in E as [-> _]. Qed.

Lemma app_cons x (a b : string) : String x a +:+ b = String x (a +:+ b).
Proof. reflexivity. Qed.

Lemma app_assoc_s (a b c : string) : (a +:+ b) +:+ c = a +:+ (b +:+ c).
Proof. induction a as [|x a IH]; [done|]. rewrite !app_cons. by f_equal. Qed.

Lemma app_String (a : string) d s :
  a +:+ String d s = (a +:+ String d "") +:+ s.
Proof.
  induction a as [|x a IH]; [done|]. rewrite !app_cons. by f_equal.
Qed.

(** The decimal text of an integer holds digits and at most a sign. *)
Lemma pretty_N_go_chars c (x : N) s :
  has_char c (pretty_N_go x s) = true →
  has_char c s = true ∨ has_char c "0123456789" = true.
Proof.
  revert s. induction (N.lt_wf_0 x) as [x _ IH]; intros s H.
  destruct (decide (x = 0%N)) as [->|Hx].
  { rewrite pretty_N_go_0 in H. by left. }
  rewrite pretty_N_go_step in H by lia.
  apply IH in H as [H|H]; [|by right|by apply N.div_lt; lia].
  simpl in H. apply orb_true_iff in H as [H|H]; [|by left].
  right. apply Ascii.eqb_eq in H as ->.
  unfold pretty_N_char. by repeat case_match.
Qed.

Lemma pretty_Z_chars c (z : Z) :
  has_char c (pretty z) = true → has_char c "-0123456789" = true.
Proof.
  assert (∀ p : positive, has_char c (pretty p) = true →
                          has_char c "0123456789" = true) as Hpos.
  { intros p. unfold pretty, pretty_positive, pretty, pretty_N.
    case_decide; [done|]. intros Hc.
    by apply pretty_N_go_chars in Hc as [Hc|Hc]. }
  destruct z as [|p|p]; unfold pretty, pretty_Z.
  - simpl. rewrite !orb_false_r. intros ->%Ascii.eqb_eq. done.
  - intros Hc%Hpos. simpl in *. by rewrite Hc, orb_true_r.
  - rewrite has_char_app. intros [Hc|Hc%Hpos]%orb_true_iff.
    + simpl in *. rewrite orb_false_r in Hc. by rewrite Hc.
    + simpl in *. by rewrite Hc, orb_true_r.
Qed.

Lemma pretty_Z_no_char c (z : Z) :
  has_char c "-0123456789" = false → has_char c (pretty z) = false.
Proof.
  intros H. destruct (has_char c (pretty z)) eqn:E; [|done].
  apply pretty_Z_chars in E. congruence.
Qed.

End StringFacts.

(** ** Cache keys *)

Section CacheKeys.

Context `{RT : Runtime}.

Lemma dumps_sorted_perm (P1 P2 : pydict) :
  NoDup (PyDict.keys P1) → P1 ≡ₚ P2 →
  Json.dumps float_repr true (JDict P1) = Json.dumps float_repr true (JDict P2).
Proof.
  intros Hnd Hp. simpl. do 4 f_equal.
  apply sort_items_unique.
  - unfold PyDict.keys in Hnd. by rewrite map_map.
  - by apply Permutation_map.
Qed.

(** C4. Two parameter dicts with the same fields, built in different
    orders, serialize to the same text under [sort_keys=True] and so
    derive the same cache key for every prompt. *)
Theorem get_cache_key_order_independent (T : string) (P1 P2 : pydict) :
  NoDup (PyDict.keys P1) → P1 ≡ₚ P2 →
  Json.dumps float_repr true (JDict P1) = Json.dumps float_repr true (JDict P2)
  ∧ get_cache_key T P1 = get_cache_key T P2.
Proof.
  intros Hnd Hp. pose proof (dumps_sorted_perm P1 P2 Hnd Hp) as E.
  split; [done|]. unfold get_cache_key, cache_data. by rewrite E.
Qed.

Lemma cache_data_text (r : GenerationRequest.t) :
  cache_data (GenerationRequest.prompt r) (cache_params r)
  = GenerationRequest.prompt r +:+ String ":" (String "{" (params_text r)).
Proof.
  unfold cache_data, params_text, cache_params, Json.dumps.
  f_equal. simpl. unfold Json.item_text. simpl.
  rewrite !app_assoc_s.
  by destruct (GenerationRequest.do_sample r).
Qed.

Section Injective.

(** The text of a float names the float, and holds no comma or brace. *)
Hypothesis float_repr_inj : ∀ x y, float_repr x = float_repr y → x = y.
Hypothesis float_repr_comma : ∀ x, PyStr.has_char "," (float_repr x) = false.
Hypothesis float_repr_brace : ∀ x, PyStr.has_char "{" (float_repr x) = false.

Lemma params_text_no_brace r : PyStr.has_char "{" (params_text r) = false.
Proof.
  unfold params_text.
  repeat (rewrite has_char_app || rewrite has_char_cons).
  rewrite !float_repr_brace.
  rewrite (pretty_Z_no_char "{") by reflexivity.
  by destruct (GenerationRequest.do_sample r).
Qed.

Lemma params_text_inj r1 r2 :
  params_text r1 = params_text r2 →
  GenerationRequest.max_new_tokens r1 = GenerationRequest.max_new_tokens r2
  ∧ GenerationRequest.temperature r1 = GenerationRequest.temperature r2
  ∧ GenerationRequest.top_p r1 = GenerationRequest.top_p r2
  ∧ GenerationRequest.do_sample r1 = GenerationRequest.do_sample r2.
Proof.
  unfold params_text. intros E.
  apply (inj (String.app _)) in E.
  apply split_first in E as [Eb E];
    [|by destruct (GenerationRequest.do_sample r1)
     |by destruct (GenerationRequest.do_sample r2)].
  apply (inj (String.app _)) in E.
  apply split_first in E as [En E];
    [|by apply pretty_Z_no_char..].
  apply (inj (String.app _)) in E.
  apply split_first in E as [Et E]; [|done..].
  apply (inj (String.app _)) in E.
  apply app_char_inj in E.
  apply (inj pretty) in En.
  repeat split; auto.
  by destruct (GenerationRequest.do_sample r1),
       (GenerationRequest.do_sample r2).
Qed.

Lemma cache_data_inj r1 r2 :
  cache_data (GenerationRequest.prompt r1) (cache_params r1)
  = cache_data (GenerationRequest.prompt r2) (cache_params r2) →
  same_key_fields r1 r2.
Proof.
  rewrite !cache_data_text. intros E.
  rewrite (app_String (GenerationRequest.prompt r1)),
    (app_String (GenerationRequest.prompt r2)) in E.
  apply split_last in E as [Ep E]; [|by apply params_text_no_brace..].
  apply app_char_inj in Ep. apply params_text_inj in E.
  by split.
Qed.

End Injective.

(** C5. With a text of floats that names the float and holds no comma or
    brace, the text hashed for a request determines the prompt and the four
    generation parameters: requests that differ in one of them are hashed
    from different texts, and under a digest without collisions they get
    different cache keys. *)
Theorem cache_key_separates (r1 r2 : GenerationRequest.t) :
  (∀ x y, float_repr x = float_repr y → x = y) →
  (∀ x, PyStr.has_char "," (float_repr x) = false) →
  (∀ x, PyStr.has_char "{" (float_repr x) = false) →
  ¬ same_key_fields r1 r2 →
  cache_data (GenerationRequest.prompt r1) (cache_params r1)
    ≠ cache_data (GenerationRequest.prompt r2) (cache_params r2)
  ∧ ((∀ a b, md5_hexdigest a = md5_hexdigest b → a = b) →
     get_cache_key (GenerationRequest.prompt r1) (cache_params r1)
       ≠ get_cache_key (GenerationRequest.prompt r2) (cache_params r2)).
Proof.
  intros Hinj Hcomma Hbrace Hdiff.
  assert (cache_data (GenerationRequest.prompt r1) (cache_params r1)
            ≠ cache_data (GenerationRequest.prompt r2) (cache_params r2)) as Hne.
  { intros E. apply Hdiff. by apply cache_data_inj. }
  split; [done|]. intros Hmd5 E. apply Hne.
  unfold get_cache_key in E. by apply (inj (String.app _)), Hmd5 in E.
Qed.

End CacheKeys.


(** ** Dicts *)

Section DictFacts.

Lemma dict_get_set_eq k v (d : pydict) : PyDict.get k (PyDict.set k v d) = Some v.
Proof.
  induction d as [|[k' v'] d IH]; simpl.
  - by rewrite String.eqb_refl.
  - destruct (String.eqb k k') eqn:E; simpl; by rewrite ?String.eqb_refl, ?E.
Qed.

Lemma dict_get_set_ne k k' v (d : pydict) :
  k ≠ k' → PyDict.get k' (PyDict.set k v d) = PyDict.get k' d.
Proof.
  intros Hne. induction d as [|[k0 v0] d IH]; simpl.
  - by apply String.eqb_neq in Hne; rewrite String.eqb_sym, Hne.
  - destruct (String.eqb k k0) eqn:E; simpl.
    + apply String.eqb_eq in E as <-.
      apply String.eqb_neq in Hne. by rewrite String.eqb_sym, Hne.
    + by rewrite IH.
Qed.

End DictFacts.

(** ** The cache gateway *)

Section Gateway.

Context `{RT : Runtime}.

(** What one call of [get_cached_response] does to the world: nothing
    without a client, one [GET] otherwise (the stored entries stay), and
    possibly a warning. The clock and the tasks are not touched. *)
Lemma get_cached_response_frame key w :
  let w' := snd (get_cached_response key w) in
  clock w' = clock w ∧ ticks w' = ticks w
  ∧ background_tasks w' = background_tasks w
  ∧ match redis_client w with
    | None => redis_client w' = None ∧ logger w' = logger w
    | Some r =>
        ∃ r', redis_client w' = Some r'
              ∧ r_ops r' = r_ops r ++ [OpGet key]
              ∧ r_data r' = r_data r ∧ r_fault r' = r_fault r
    end.
Proof.
  unfold get_cached_response.
  destruct (redis_client w) as [r|] eqn:Hc; simpl; [|by rewrite Hc].
  unfold try_except, bind, redis_get, redis_command. rewrite Hc.
  destruct (r_fault r (length (r_ops r))) as [msg|]; simpl.
  { repeat split; eauto. }
  destruct (snd <$> r_data r !! key) as [s|]; simpl;
    [|repeat split; eauto].
  destruct (negb (String.eqb s "")); simpl; [|repeat split; eauto].
  unfold lift. destruct (json_loads s); simpl; repeat split; eauto.
Qed.

Lemma get_cached_response_returns key w :
  ∃ v, fst (get_cached_response key w) = Ok v.
Proof.
  unfold get_cached_response.
  destruct (redis_client w) as [r|] eqn:Hc; simpl; [|eauto].
  unfold try_except, bind, redis_get, redis_command. rewrite Hc.
  destruct (r_fault r (length (r_ops r))) as [msg|]; simpl; [eauto|].
  destruct (snd <$> r_data r !! key) as [s|]; simpl; [|eauto].
  destruct (negb (String.eqb s "")); simpl; [|eauto].
  unfold lift. destruct (json_loads s); simpl; eauto.
Qed.

Lemma cache_response_returns key response ttl w :
  fst (cache_response key response ttl w) = Ok tt.
Proof.
  unfold cache_response.
  destruct (redis_client w) as [r|] eqn:Hc; simpl; [|done].
  unfold try_except, redis_setex, redis_command. rewrite Hc.
  by destruct (r_fault r (length (r_ops r))).
Qed.




(** Without a client the call is a miss and leaves the world as it is. *)
Lemma get_cached_response_disabled key w :
  redis_client w = None → get_cached_response key w = (Ok JNone, w).
Proof. intros Hc. unfold get_cached_response. by rewrite Hc. Qed.

End Gateway.

(** ** The paths of [generate_text] *)

Section Handler.

Context `{RT : Runtime}.
Variable G : Globals.

Lemma unready_path request w :
  ¬ ready G →
  generate_text G request w
  = (Raise (HTTPException 503 "Model not loaded"), set_ticks (S (ticks w)) w).
Proof.
  unfold ready, generate_text, bind, time_time, raise. intros Hn.
  destruct (model G), (tokenizer G); try done.
  destruct Hn. by split.
Qed.

Lemma cache_read_frame request w :
  let w1 := snd (cache_read request w) in
  clock w1 = clock w ∧ ticks w1 = S (ticks w)
  ∧ background_tasks w1 = background_tasks w.
Proof.
  unfold cache_read.
  destruct (get_cached_response_frame (key_of request)
              (set_ticks (S (ticks w)) w)) as (Hc & Ht & Hb & _).
  simpl in *. by rewrite Hc, Ht, Hb.
Qed.

Lemma miss_path request w m tok v w1 :
  model G = Some m → tokenizer G = Some tok →
  cache_read request w = (Ok v, w1) → truthy v = false →
  generate_text G request w
  = match engine_run G tok request with
    | Raise e => classify_failure e w1
    | Ok (text, tokens) =>
        let w2 := after_generation G request text (elapsed w) tokens w1 in
        match response_of_dict
                (response_dict G request text (elapsed w) tokens) with
        | Ok r => (Ok r, w2)
        | Raise e => classify_failure e w2
        end
    end.
Proof.
  intros Hm Ht Hr Hv.
  pose proof (cache_read_frame request w) as (Hc & Hk & _).
  rewrite Hr in Hc, Hk. simpl in Hc, Hk.
  unfold generate_text, bind at 1, time_time. simpl. rewrite Hm, Ht.
  unfold bind at 1. unfold cache_read, key_of in Hr. rewrite Hr, Hv.
  unfold engine_run, try_except, bind, lift.
  destruct (call_text_generator _ _ _) as [results|e]; [|done].
  destruct (first_item results) as [result|e]; [|done].
  destruct (getitem result "generated_text") as [text|e]; [|done].
  destruct (encode tok text) as [ids|e]; [|done].
  unfold time_time, add_task, log. simpl.
  unfold elapsed, finished, started. rewrite Hc, Hk.
  unfold after_generation, write_task, key_of. rewrite Hk.
  by destruct (response_of_dict _).
Qed.

Lemma hit_path request w m tok v w1 :
  model G = Some m → tokenizer G = Some tok →
  cache_read request w = (Ok v, w1) → truthy v = true →
  generate_text G request w
  = let w2 :=
      set_ticks (S (ticks w1))
        (set_logger (logger w1 ++ [(INFO, "Serving from cache")]) w1) in
    match setitem v "processing_time" (JFloat (elapsed w)) with
    | Raise e => (Raise e, w2)
    | Ok c1 =>
        match setitem c1 "cached" (JBool true) with
        | Raise e => (Raise e, w2)
        | Ok c2 => (response_of c2, w2)
        end
    end.
Proof.
  intros Hm Ht Hr Hv.
  pose proof (cache_read_frame request w) as (Hc & Hk & _).
  rewrite Hr in Hc, Hk. simpl in Hc, Hk.
  unfold generate_text, bind at 1, time_time. simpl. rewrite Hm, Ht.
  unfold bind at 1. unfold cache_read, key_of in Hr. rewrite Hr, Hv.
  unfold bind, log, time_time, lift. simpl.
  unfold elapsed, finished, started. rewrite Hc, Hk.
  destruct (setitem v _ _) as [c1|e]; [|done].
  by destruct (setitem c1 _ _).
Qed.

Lemma cache_read_only_read request w :
  only_read request w (snd (cache_read request w)).
Proof.
  unfold cache_read, only_read.
  pose proof (get_cached_response_frame (key_of request)
                (set_ticks (S (ticks w)) w)) as (_ & _ & _ & Hs).
  simpl in Hs. destruct (redis_client w) as [r0|]; [done|by destruct Hs].
Qed.

(** The read of a request always returns. *)
Lemma cache_read_returns request w :
  ∃ v w1, cache_read request w = (Ok v, w1).
Proof.
  unfold cache_read.
  destruct (get_cached_response_returns (key_of request)
              (set_ticks (S (ticks w)) w)) as [v Hv].
  destruct (get_cached_response _ _) as [o w1]. simpl in Hv. subst. eauto.
Qed.

End Handler.

(** ** Substrings in any casing *)

Section Casing.

Import PyStr.

Lemma prefix_spec (a s : string) :
  String.prefix a s = true ↔ ∃ post, s = a +:+ post.
Proof.
  revert s. induction a as [|x a IH]; intros s.
  { split; [intros _; by exists s|by destruct s]. }
  destruct s as [|y s]; simpl.
  { split; [done|]. intros [post Hp]. by rewrite app_cons in Hp. }
  destruct (ascii_dec x y) as [->|Hne].
  - rewrite IH. split; intros [post Hp]; exists post.
    + by rewrite app_cons, Hp.
    + rewrite app_cons in Hp. by injection Hp.
  - split; [done|]. intros [post Hp]. rewrite app_cons in Hp.
    injection Hp as ? ?. by destruct Hne.
Qed.

Lemma contains_spec (needle s : string) :
  contains needle s = true ↔ ∃ pre post, s = pre +:+ needle +:+ post.
Proof.
  induction s as [|y s IH].
  - cbn [contains]. rewrite orb_false_r, prefix_spec. split.
    + intros [post Hp]. by exists "", post.
    + intros ([|x pre] & post & Hp); [by exists post|].
      by rewrite app_cons in Hp.
  - cbn [contains]. rewrite orb_true_iff, IH, prefix_spec. split.
    + intros [[post Hp]|(pre & post & Hp)].
      * by exists "", post.
      * exists (String y pre), post. by rewrite app_cons, Hp.
    + intros ([|x pre] & post & Hp).
      * left. by exists post.
      * right. rewrite app_cons in Hp. injection Hp as ? Hp. by exists pre, post.
Qed.

Lemma lower_app (a b : string) : lower (a +:+ b) = lower a +:+ lower b.
Proof.
  induction a as [|x a IH]; [done|].
  rewrite app_cons. simpl. by rewrite IH, app_cons.
Qed.

(** A cut of the lower-case text is a cut of the text. *)
Lemma lower_cut (s a b : string) :
  lower s = a +:+ b → ∃ a' b', s = a' +:+ b' ∧ lower a' = a ∧ lower b' = b.
Proof.
  revert s. induction a as [|x a IH]; intros s E.
  { by exists "", s. }
  destruct s as [|y s]; [by rewrite app_cons in E|].
  rewrite app_cons in E. simpl in E. injection E as Hx E.
  destruct (IH s E) as (a' & b' & -> & <- & <-).
  exists (String y a'), b'. by rewrite app_cons, <-Hx.
Qed.

Lemma contains_lower_iff (needle hay : string) :
  contains needle (lower hay) = true ↔ occurs_any_case needle hay.
Proof.
  rewrite contains_spec. unfold occurs_any_case. split.
  - intros (pre & post & E).
    apply lower_cut in E as (pre' & rest & -> & _ & E).
    apply lower_cut in E as (mid & post' & -> & Hm & _).
    by exists pre', mid, post'.
  - intros (pre & mid & post & -> & <-).
    exists (lower pre), (lower post). by rewrite !lower_app.
Qed.

End Casing.

(** ** The request path *)

Section RequestPath.

Context `{RT : Runtime}.
Variable G : Globals.

Lemma ready_handles :
  ready G → ∃ m tok, model G = Some m ∧ tokenizer G = Some tok.
Proof.
  intros [Hm Ht]. destruct (model G) as [m|], (tokenizer G) as [tok|];
    try done. eauto.
Qed.

(** A request that is answered found the engine ready. *)
Lemma answered_ready request w r :
  fst (generate_text G request w) = Ok r → ready G.
Proof.
  intros H. unfold ready.
  destruct (model G) as [m|] eqn:Hm, (tokenizer G) as [tok|] eqn:Ht;
    try done; rewrite unready_path in H; try done;
    unfold ready; rewrite ?Hm, ?Ht; by intros [? ?].
Qed.

Lemma response_of_generated request text t tokens :
  response_of_dict (response_dict G request (JStr text) t tokens)
  = Ok {| GenerationResponse.prompt := GenerationRequest.prompt request;
          GenerationResponse.generated_text := text;
          GenerationResponse.processing_time := t;
          GenerationResponse.device_used := DEVICE G;
          GenerationResponse.cached := false;
          GenerationResponse.tokens_generated := tokens |}.
Proof.
  unfold response_of_dict, response_dict. cbn [PyDict.get String.eqb Ascii.eqb
    Bool.eqb fst snd].
  by rewrite pydantic_float_float, pydantic_bool_bool, pydantic_int_int.
Qed.

(** A response built from the assembled dict reports [cached = false],
    and the text in it is a [str]. *)
Lemma response_of_generated_inv request text t tokens r :
  response_of_dict (response_dict G request text t tokens) = Ok r →
  ∃ s, text = JStr s
       ∧ GenerationResponse.cached r = false
       ∧ GenerationResponse.generated_text r = s
       ∧ GenerationResponse.processing_time r = t
       ∧ GenerationResponse.tokens_generated r = tokens
       ∧ GenerationResponse.prompt r = GenerationRequest.prompt request
       ∧ GenerationResponse.device_used r = DEVICE G.
Proof.
  destruct text as [| | | |s| |]; try done.
  rewrite response_of_generated. intros [= <-]. by exists s.
Qed.

(** C1. A response served from the store has [cached = true] and the time
    elapsed since the request was received, whatever the stored payload
    says about either. The prompt, the generated text and the device are
    the stored texts. The count of tokens is the stored value as the [int]
    field of the response model takes it: the stored count itself when
    that is an [int], as in every entry this service writes. *)
Theorem cache_hit_recomputes request w v w1 r :
  cache_read request w = (Ok v, w1) → truthy v = true →
  fst (generate_text G request w) = Ok r →
  ∃ d, v = JDict d
    ∧ GenerationResponse.cached r = true
    ∧ GenerationResponse.processing_time r = elapsed w
    ∧ PyDict.get "prompt" d = Some (JStr (GenerationResponse.prompt r))
    ∧ PyDict.get "generated_text" d
      = Some (JStr (GenerationResponse.generated_text r))
    ∧ PyDict.get "device_used" d
      = Some (JStr (GenerationResponse.device_used r))
    ∧ (∃ n, PyDict.get "tokens_generated" d = Some n
            ∧ pydantic_int n = Some (GenerationResponse.tokens_generated r))
    ∧ (∀ k, PyDict.get "tokens_generated" d = Some (JInt k) →
            GenerationResponse.tokens_generated r = k).
Proof.
  intros Hr Hv Hok.
  destruct (ready_handles (answered_ready _ _ _ Hok)) as (m & tok & Hm & Ht).
  rewrite (hit_path G request w m tok v w1 Hm Ht Hr Hv) in Hok.
  destruct v as [| | | | | |d]; try done.
  exists d. split; [done|]. simpl in Hok.
  unfold response_of_dict in Hok.
  rewrite dict_get_set_eq in Hok.
  rewrite !(dict_get_set_ne "cached") in Hok by done.
  rewrite dict_get_set_eq in Hok.
  rewrite !(dict_get_set_ne "processing_time") in Hok by done.
  rewrite pydantic_float_float, pydantic_bool_bool in Hok.
  destruct (PyDict.get "prompt" d) as [[| | | |p| |]|]; try done.
  destruct (PyDict.get "generated_text" d) as [[| | | |g| |]|]; try done.
  destruct (PyDict.get "device_used" d) as [[| | | |dev| |]|]; try done.
  destruct (PyDict.get "tokens_generated" d) as [n|]; try done.
  destruct (pydantic_int n) as [k|] eqn:Hn; try done.
  injection Hok as <-. simpl.
  do 5 (split; [done|]). split; [by exists n|].
  intros k' [= ->]. rewrite pydantic_int_int in Hn. by injection Hn.
Qed.

(** C10. While the model or the tokenizer is missing, a request is refused
    with 503 before the store is consulted: the client is left as it was,
    whatever it holds, and the route answers 503. *)
Theorem unready_skips_cache request w :
  model G = None ∨ tokenizer G = None →
  fst (generate_text G request w) = Raise (HTTPException 503 "Model not loaded")
  ∧ redis_client (snd (generate_text G request w)) = redis_client w
  ∧ (∀ body, validate_request body = Some request →
       fst (post_generate G body w) = ResponseError 503 "Model not loaded"
       ∧ redis_client (snd (post_generate G body w)) = redis_client w).
Proof.
  intros Hn.
  assert (¬ ready G) as Hnr.
  { intros [Hm Ht]. by destruct Hn. }
  rewrite (unready_path G request w Hnr). repeat split; try done.
  all: unfold post_generate; rewrite H, (unready_path G _ _ Hnr); done.
Qed.

(** C9. Two requests that agree on the prompt and on the four generation
    parameters get the same cache key, the same engine arguments and the
    same outcome and effects, whatever their [stream] fields are. *)
Theorem stream_is_ignored (r1 r2 : GenerationRequest.t) w :
  same_key_fields r1 r2 →
  key_of r1 = key_of r2
  ∧ (∀ tok, gen_args tok r1 = gen_args tok r2)
  ∧ generate_text G r1 w = generate_text G r2 w.
Proof.
  destruct r1 as [p1 n1 t1 tp1 ds1 s1], r2 as [p2 n2 t2 tp2 ds2 s2].
  unfold same_key_fields. simpl. intros (-> & -> & -> & -> & ->).
  done.
Qed.

(** The except clause: the two outcomes of [classify_failure]. *)
Lemma classify_failure_outcome (e : exn) w :
  (occurs_any_case "out of memory" (exn_str e) →
   fst (classify_failure (A := GenerationResponse.t) e w)
   = Raise (HTTPException 507 "GPU memory insufficient"))
  ∧ (¬ occurs_any_case "out of memory" (exn_str e) →
     fst (classify_failure (A := GenerationResponse.t) e w)
     = Raise (HTTPException 500 ("Generation failed: " +:+ exn_str e))).
Proof.
  unfold classify_failure, bind, log, raise. simpl.
  destruct (PyStr.contains _ _) eqn:E.
  - apply contains_lower_iff in E. by split.
  - split; [|done]. intros H%contains_lower_iff. congruence.
Qed.

(** The except clause always raises, and what it raises depends on the
    exception alone. *)
Lemma classify_failure_not_ok (e : exn) w (r : GenerationResponse.t) :
  fst (classify_failure e w) ≠ Ok r.
Proof.
  unfold classify_failure, bind, log, raise. simpl.
  by destruct (PyStr.contains _ _).
Qed.


Lemma classify_failure_world (e : exn) w :
  snd (classify_failure (A := GenerationResponse.t) e w)
  = set_logger (logger w ++ [(ERROR, "Generation error: " +:+ exn_str e)]) w.
Proof.
  unfold classify_failure, bind, log, raise. simpl.
  by destruct (PyStr.contains _ _).
Qed.

(** C3. The failures of a request: 503 while the model or the tokenizer is
    missing; on a miss, a generation that raises is answered 507 when the
    text of the exception holds "out of memory" in any casing, and 500 with
    that text in the detail otherwise. *)
Theorem failures_classified request w :
  (model G = None ∨ tokenizer G = None →
   fst (generate_text G request w)
   = Raise (HTTPException 503 "Model not loaded"))
  ∧ (∀ m tok v w1 e,
       model G = Some m → tokenizer G = Some tok →
       cache_read request w = (Ok v, w1) → truthy v = false →
       engine_run G tok request = Raise e →
       (occurs_any_case "out of memory" (exn_str e) →
        fst (generate_text G request w)
        = Raise (HTTPException 507 "GPU memory insufficient"))
       ∧ (¬ occurs_any_case "out of memory" (exn_str e) →
          fst (generate_text G request w)
          = Raise (HTTPException 500
                     ("Generation failed: " +:+ exn_str e)))).
Proof.
  split.
  - intros Hn. rewrite unready_path; [done|]. intros [? ?]. by destruct Hn.
  - intros m tok v w1 e Hm Ht Hr Hv He.
    rewrite (miss_path G request w m tok v w1 Hm Ht Hr Hv), He.
    apply classify_failure_outcome.
Qed.

(** The store as a request leaves it: as the read left it. *)
Lemma generate_text_store request w v w1 :
  cache_read request w = (Ok v, w1) →
  ready G →
  redis_client (snd (generate_text G request w)) = redis_client w1.
Proof.
  intros Hr (m & tok & Hm & Ht)%ready_handles.
  destruct (truthy v) eqn:Hv.
  - rewrite (hit_path G request w m tok v w1 Hm Ht Hr Hv). simpl.
    destruct (setitem v _ _) as [c1|]; [|done].
    by destruct (setitem c1 _ _).
  - rewrite (miss_path G request w m tok v w1 Hm Ht Hr Hv).
    destruct (engine_run G tok request) as [[text tokens]|e].
    + simpl. destruct (response_of_dict _); [done|].
      by rewrite classify_failure_world.
    + by rewrite classify_failure_world.
Qed.

(** The tasks as a request leaves them: one more after a generation, the
    same otherwise. *)
Lemma generate_text_tasks request w :
  background_tasks (snd (generate_text G request w)) = background_tasks w
  ∨ ∃ tok text tokens,
      tokenizer G = Some tok
      ∧ engine_run G tok request = Ok (text, tokens)
      ∧ background_tasks (snd (generate_text G request w))
        = background_tasks w ++ [write_task G request text (elapsed w) tokens].
Proof.
  destruct (model G) as [m|] eqn:Hm; [destruct (tokenizer G) as [tok|] eqn:Ht|].
  2, 3: left; rewrite unready_path; [done|];
        unfold ready; rewrite ?Hm, ?Ht; by intros [? ?].
  destruct (cache_read_returns request w) as (v & w1 & Hr).
  pose proof (cache_read_frame request w) as (_ & _ & Hb).
  rewrite Hr in Hb. simpl in Hb.
  destruct (truthy v) eqn:Hv.
  - left. rewrite (hit_path G request w m tok v w1 Hm Ht Hr Hv). simpl.
    destruct (setitem v _ _) as [c1|]; [|done].
    by destruct (setitem c1 _ _).
  - rewrite (miss_path G request w m tok v w1 Hm Ht Hr Hv).
    destruct (engine_run G tok request) as [[text tokens]|e] eqn:He.
    + right. exists tok, text, tokens. repeat split; [done|].
      simpl. destruct (response_of_dict _);
        rewrite ?classify_failure_world; simpl; by rewrite Hb.
    + left. by rewrite classify_failure_world.
Qed.

(** C6. When the generation raises, the request schedules no task and
    sends no command to the store beyond its read; and a request that
    leaves a task behind went through a generation that returned. *)
Theorem failed_generation_writes_nothing request w :
  (∀ m tok v w1 e,
     model G = Some m → tokenizer G = Some tok →
     cache_read request w = (Ok v, w1) → truthy v = false →
     engine_run G tok request = Raise e →
     background_tasks (snd (generate_text G request w)) = background_tasks w
     ∧ only_read request w (snd (generate_text G request w)))
  ∧ (background_tasks (snd (generate_text G request w)) ≠ background_tasks w →
     ∃ tok text tokens,
       tokenizer G = Some tok ∧ engine_run G tok request = Ok (text, tokens)).
Proof.
  split.
  - intros m tok v w1 e Hm Ht Hr Hv He. split.
    + rewrite (miss_path G request w m tok v w1 Hm Ht Hr Hv), He.
      rewrite classify_failure_world. simpl.
      pose proof (cache_read_frame request w) as (_ & _ & Hb).
      by rewrite Hr in Hb.
    + pose proof (cache_read_only_read request w) as Ho.
      rewrite Hr in Ho. simpl in Ho. unfold only_read in *.
      rewrite (generate_text_store request w v w1 Hr); [done|].
      unfold ready. by rewrite Hm, Ht.
  - intros Hne.
    destruct (generate_text_tasks request w)
      as [Hb|(tok & text & tokens & Ht & He & _)]; [done|].
    by exists tok, text, tokens.
Qed.

(** Running the one task of a request: the call returns, and a client
    gets one [SETEX] of the serialized response under the key with the
    time to live of the task, which stores the entry unless the server
    fails the command. *)
Lemma run_one_task (t : Task) w :
  background_tasks w = [t] →
  fst (run_background_tasks w) = Ok tt
  ∧ background_tasks (snd (run_background_tasks w)) = []
  ∧ match redis_client w with
    | None => redis_client (snd (run_background_tasks w)) = None
    | Some r0 =>
        let payload := Json.dumps float_repr false (JDict (task_response t)) in
        ∃ r1, redis_client (snd (run_background_tasks w)) = Some r1
              ∧ r_ops r1 = r_ops r0 ++ [OpSetex (task_key t) (task_ttl t) payload]
              ∧ (r_fault r0 (length (r_ops r0)) = None →
                 r_data r1 = <[task_key t := (task_ttl t, payload)]> (r_data r0))
    end.
Proof.
  intros Hb. unfold run_background_tasks. rewrite Hb.
  unfold run_tasks, bind, cache_response, ret. simpl.
  destruct (redis_client w) as [r0|] eqn:Hc; simpl; [|by rewrite Hc].
  unfold try_except, redis_setex, redis_command. simpl. rewrite Hc.
  destruct (r_fault r0 (length (r_ops r0))); simpl;
    (split; [done|split; [done|]]); eexists; (split; [done|]); by split.
Qed.

(** C7. A miss that is answered has scheduled one task and no more: the
    write of the assembled response under the key of the request with a time
    to live of 3600 seconds. The response is that of the assembled dict, and
    when it is returned the store has seen the read only; the write is sent
    when the task runs, and that run returns whether or not the server
    accepts the command. *)
Theorem generation_schedules_one_write request w v w1 r :
  background_tasks w = [] →
  cache_read request w = (Ok v, w1) → truthy v = false →
  fst (generate_text G request w) = Ok r →
  ∃ tok text tokens,
    tokenizer G = Some tok
    ∧ engine_run G tok request = Ok (JStr text, tokens)
    ∧ let task := write_task G request (JStr text) (elapsed w) tokens in
      let w' := snd (generate_text G request w) in
      background_tasks w' = [task]
      ∧ task_key task = key_of request ∧ task_ttl task = 3600
      ∧ response_of_dict (task_response task) = Ok r
      ∧ only_read request w w'
      ∧ fst (run_background_tasks w') = Ok tt
      ∧ match redis_client w' with
        | None => redis_client (snd (run_background_tasks w')) = None
        | Some r0 =>
            let payload :=
              Json.dumps float_repr false (JDict (task_response task)) in
            ∃ r1, redis_client (snd (run_background_tasks w')) = Some r1
                  ∧ r_ops r1 = r_ops r0 ++ [OpSetex (key_of request) 3600 payload]
                  ∧ (r_fault r0 (length (r_ops r0)) = None →
                     r_data r1 = <[key_of request := (3600, payload)]> (r_data r0))
        end.
Proof.
  intros Hb0 Hr Hv Hok.
  pose proof (answered_ready _ _ _ Hok) as Hready.
  destruct (ready_handles Hready) as (m & tok & Hm & Ht).
  pose proof (generate_text_store request w v w1 Hr Hready) as Hstore.
  pose proof (cache_read_only_read request w) as Ho.
  pose proof (cache_read_frame request w) as (_ & _ & Hb).
  rewrite Hr in Ho, Hb. simpl in Ho, Hb.
  rewrite (miss_path G request w m tok v w1 Hm Ht Hr Hv) in Hok, Hstore |- *.
  destruct (engine_run G tok request) as [[text tokens]|e] eqn:He.
  2: { by apply classify_failure_not_ok in Hok. }
  simpl in Hok, Hstore |- *.
  destruct (response_of_dict _) as [r'|e] eqn:Hresp.
  2: { by apply classify_failure_not_ok in Hok. }
  simpl in Hok. injection Hok as ->.
  destruct (response_of_generated_inv _ _ _ _ _ Hresp) as (s & -> & _).
  exists tok, s, tokens. split; [done|]. split; [done|].
  simpl in Hstore |- *.
  assert (background_tasks (after_generation G request (JStr s) (elapsed w) tokens w1)
          = [write_task G request (JStr s) (elapsed w) tokens]) as Htasks.
  { simpl. by rewrite Hb, Hb0. }
  destruct (run_one_task _ _ Htasks) as (Hrun & _ & Hsent).
  repeat split; done.
Qed.





End RequestPath.

(** ** Validation at the boundary *)

Section Validation.

Context `{RT : Runtime}.
Variable G : Globals.

Lemma str_field_spec lo hi v s :
  str_field lo hi v = Some s
  ↔ v = Some s ∧ (lo ≤ String.length s ≤ hi)%nat.
Proof.
  unfold str_field. destruct v as [s'|]; [|naive_solver].
  destruct (_ && _) eqn:E.
  - apply andb_true_iff in E as [?%Nat.leb_le ?%Nat.leb_le]. naive_solver.
  - split; [done|]. intros [[= ->] [H1 H2]].
    apply Nat.leb_le in H1, H2. by rewrite H1, H2 in E.
Qed.

Lemma int_field_spec d lo hi v n :
  int_field d lo hi v = Some n ↔ field_ok v d (λ n, lo ≤ n ≤ hi) n.
Proof.
  unfold int_field, field_ok. destruct v as [n'|]; [|naive_solver].
  destruct (_ && _) eqn:E.
  - apply andb_true_iff in E as [?%Z.leb_le ?%Z.leb_le]. naive_solver.
  - split; [done|]. intros [-> [H1 H2]].
    apply Z.leb_le in H1, H2. by rewrite H1, H2 in E.
Qed.

Lemma float_field_spec d lo hi v x :
  float_field d lo hi v = Some x ↔ field_ok v d (between lo hi) x.
Proof.
  unfold float_field, field_ok, between. destruct v as [x'|]; [|naive_solver].
  destruct (_ && _) eqn:E.
  - apply andb_true_iff in E as [? ?]. naive_solver.
  - split; [done|]. intros [-> [H1 H2]]. by rewrite H1, H2 in E.
Qed.

Lemma bool_field_spec d v x :
  bool_field d v = Some x ↔ field_ok v d (λ _, True) x.
Proof. unfold bool_field, field_ok. destruct v; naive_solver. Qed.

Lemma validate_request_spec b r :
  validate_request b = Some r ↔ valid_fields b r.
Proof.
  unfold validate_request, valid_fields.
  rewrite <-str_field_spec, <-int_field_spec, <-!float_field_spec,
    <-!bool_field_spec.
  destruct (str_field _ _ _), (int_field _ _ _ _), (float_field _ _ _ _),
    (float_field _ _ _ _), (bool_field _ _), (bool_field _ _), r;
    simpl; naive_solver.
Qed.


End Validation.

(** ** The sample text of floats *)

Section SampleFloats.

Import PyStr.

Lemma finite_text_has_p (sign : string) (m : positive) (e : Z) :
  has_char "p" (sign +:+ pretty (Zpos m) +:+ "p" +:+ pretty e) = true.
Proof.
  rewrite !has_char_app.
  replace (has_char "p" "p") with true by reflexivity.
  by rewrite !orb_true_r.
Qed.

Lemma finite_text_without c (s : bool) (m : positive) (e : Z) :
  has_char c "+-0123456789p" = false →
  has_char c ((if s then "-" else "+") +:+ pretty (Zpos m) +:+ "p" +:+ pretty e)
  = false.
Proof.
  intros Hc.
  assert (has_char c "-0123456789" = false) as Hd.
  { simpl in *. apply orb_false_iff in Hc as [_ Hc].
    repeat (apply orb_false_iff in Hc as [? Hc]).
    by repeat (apply orb_false_iff; split). }
  rewrite !has_char_app, !(pretty_Z_no_char c) by done.
  simpl in Hc. repeat (apply orb_false_iff in Hc as [? Hc]).
  destruct s; simpl; by repeat (apply orb_false_iff; split).
Qed.

Lemma float_text_without c x :
  has_char c "+-0123456789p.InfityNa" = false →
  has_char c (Sample.float_text x) = false.
Proof.
  intros Hc. unfold Sample.float_text.
  simpl in Hc. repeat (apply orb_false_iff in Hc as [? Hc]).
  destruct (Prim2SF x) as [[]|[]| |s m e].
  1-5: simpl; by repeat (apply orb_false_iff; split).
  apply finite_text_without.
  simpl. by repeat (apply orb_false_iff; split).
Qed.

Lemma float_text_inj x y :
  Sample.float_text x = Sample.float_text y → x = y.
Proof.
  intros E. apply Prim2SF_inj. unfold Sample.float_text in E.
  destruct (Prim2SF x) as [[]|[]| |s m e] eqn:Hx,
           (Prim2SF y) as [[]|[]| |s' m' e'] eqn:Hy;
    try done.
  1-5: pose proof (finite_text_has_p (if s' then "-" else "+") m' e') as Hp;
       rewrite <-E in Hp; done.
  1-5: pose proof (finite_text_has_p (if s then "-" else "+") m e) as Hp;
       rewrite E in Hp; done.
  assert (s = s') as <-.
  { by destruct s, s'. }
  apply (inj (String.app _)) in E.
  apply (split_first "p" (pretty (Z.pos m)) (pretty e)
           (pretty (Z.pos m')) (pretty e')) in E as [Em Ee];
    [|by apply pretty_Z_no_char..].
  apply (inj pretty) in Em, Ee. by simplify_eq.
Qed.

End SampleFloats.

(** ** Start-up *)

Section StartupFacts.

Context `{RT : Runtime} `{H : Host}.

(** X1. The block that sets [redis_client] never raises. It leaves no
    client exactly when [CACHE_URL] is unset or empty or [redis.from_url]
    raises; when the client is built and its [ping] raises, the client stays
    set and the failure is logged as a warning. *)
Theorem connect_cache_client (w : World) :
  fst (connect_cache w) = Ok tt
  ∧ (redis_client (snd (connect_cache w)) = None
     ↔ getenv "CACHE_URL" = None ∨ getenv "CACHE_URL" = Some ""
       ∨ ∃ url e, getenv "CACHE_URL" = Some url ∧ redis_from_url url = Raise e)
  ∧ (∀ url c e,
       getenv "CACHE_URL" = Some url → url ≠ "" →
       redis_from_url url = Ok c → redis_ping c = Raise e →
       redis_client (snd (connect_cache w)) = Some c
       ∧ logger (snd (connect_cache w))
         = logger w ++ [(WARNING, "Redis not available: " +:+ exn_str e)]).
Proof.
  unfold connect_cache, try_except.
  destruct (getenv "CACHE_URL") as [url|] eqn:Hurl; simpl.
  2: { split; [done|]. split; [naive_solver|]. intros ? ? ? [=]. }
  destruct (String.eqb url "") eqn:Heq; simpl.
  { apply String.eqb_eq in Heq as ->.
    split; [done|]. split; [naive_solver|]. by intros ? ? ? [= <-]. }
  apply String.eqb_neq in Heq.
  unfold bind, lift. destruct (redis_from_url url) as [c|e] eqn:Hfrom; simpl.
  2: { split; [done|]. split; [|intros ? ? ? [= <-]; congruence].
       split; [|done]. intros _. right. right. by exists url, e. }
  destruct (redis_ping c) as [[]|e] eqn:Hping; simpl.
  - split; [done|]. split; [|intros ? ? ? [= <-]; congruence].
    split; [done|]. intros [?|[[= ?]|(? & ? & [= <-] & ?)]]; congruence.
  - split; [done|]. split.
    + split; [done|]. intros [?|[[= ?]|(? & ? & [= <-] & ?)]]; congruence.
    + intros url' c' e' [= <-] _ Hc He.
      rewrite Hfrom in Hc. injection Hc as <-.
      rewrite Hping in He. injection He as <-. by split.
Qed.

(** What [initialize_model] returns and leaves, loader by loader. *)
Lemma initialize_model_cases (h : Handles) (w : World) :
  let '(o, h', w') := initialize_model h w in
  match tokenizer_from_pretrained MODEL_NAME with
  | Raise e => o = Raise e ∧ h' = h
  | Ok t =>
      h_tokenizer h' = Some (with_pad_token t)
      ∧ match model_from_pretrained MODEL_NAME
                (model_kwargs_for DEVICE_at_import) with
        | Raise e =>
            o = Raise e ∧ h_model h' = h_model h
            ∧ h_text_generator h' = h_text_generator h
        | Ok m =>
            h_model h' = Some m
            ∧ match pipeline "text-generation" m (with_pad_token t)
                      (dtype_for DEVICE_at_import) with
              | Raise e =>
                  o = Raise e ∧ h_text_generator h' = h_text_generator h
              | Ok g => o = Ok tt ∧ h_text_generator h' = Some g
              end
        end
  end.
Proof.
  unfold initialize_model.
  destruct (tokenizer_from_pretrained MODEL_NAME) as [t|e]; [|done].
  destruct (model_from_pretrained _ _) as [m|e]; [|done].
  by destruct (pipeline _ _ _ _) as [g|e].
Qed.

(** X2. [initialize_model] keeps the handles in order. When it returns,
    all three handles are set; when it raises, the pipeline handle is the one
    it found, and the last record of the log is the error with the text of
    the exception. *)
Theorem initialize_model_handles (h : Handles) (w : World) :
  handles_in_order h →
  handles_in_order (initialize_model h w).1.2
  ∧ ((initialize_model h w).1.1 = Ok tt →
     h_tokenizer (initialize_model h w).1.2 ≠ None
     ∧ h_model (initialize_model h w).1.2 ≠ None
     ∧ h_text_generator (initialize_model h w).1.2 ≠ None
     ∧ last (logger (initialize_model h w).2)
       = Some (INFO, "Model initialized successfully"))
  ∧ (∀ e, (initialize_model h w).1.1 = Raise e →
       h_text_generator (initialize_model h w).1.2 = h_text_generator h
       ∧ last (logger (initialize_model h w).2)
         = Some (ERROR, "Model initialization failed: " +:+ exn_str e)).
Proof.
  intros [Hm Hg]. unfold initialize_model, handles_in_order.
  destruct (tokenizer_from_pretrained MODEL_NAME) as [t|e]; simpl.
  2: { split; [done|]. split; [done|]. intros ? [= <-].
       split; [done|]. apply last_snoc. }
  destruct (model_from_pretrained _ _) as [m|e]; simpl.
  2: { split; [naive_solver|]. split; [done|]. intros ? [= <-].
       split; [done|]. apply last_snoc. }
  destruct (pipeline _ _ _ _) as [g|e]; simpl.
  - split; [done|]. split; [|done]. intros _.
    repeat split; try done. apply last_snoc.
  - split; [naive_solver|]. split; [done|]. intros ? [= <-].
    split; [done|]. apply last_snoc.
Qed.

(** X3. Once the tokenizer is loaded, the handle holds it with its pad
    token filled in: the pad token it came with, or else its end-of-sequence
    token. The handle has no pad token only if the loaded tokenizer had
    neither. *)
Theorem initialize_model_pad_token (h : Handles) (w : World)
    (t : PretrainedTokenizer) :
  tokenizer_from_pretrained MODEL_NAME = Ok t →
  ∃ t', h_tokenizer (initialize_model h w).1.2 = Some t'
    ∧ pt_tokenizer t' = pt_tokenizer t
    ∧ eos_token t' = eos_token t
    ∧ pad_token t' = match pad_token t with
                     | Some p => Some p
                     | None => eos_token t
                     end
    ∧ (pad_token t' = None → pad_token t = None ∧ eos_token t = None).
Proof.
  intros Ht. pose proof (initialize_model_cases h w) as Hc.
  destruct (initialize_model h w) as [[o h'] w']. rewrite Ht in Hc.
  destruct Hc as [Hh _]. exists (with_pad_token t). simpl.
  split; [done|]. unfold with_pad_token.
  destruct (pad_token t) as [p|] eqn:Hp; simpl; rewrite ?Hp; by repeat split.
Qed.

End StartupFacts.

(** ** More on the request path *)

Section RequestPathMore.

Context `{RT : Runtime}.
Variable G : Globals.

Lemma classify_failure_cases (e : exn) w :
  fst (classify_failure (A := GenerationResponse.t) e w)
  = Raise (HTTPException 507 "GPU memory insufficient")
  ∨ fst (classify_failure (A := GenerationResponse.t) e w)
    = Raise (HTTPException 500 ("Generation failed: " +:+ exn_str e)).
Proof.
  unfold classify_failure, bind, log, raise. simpl.
  destruct (PyStr.contains _ _); auto.
Qed.

Lemma not_ready_cases : ¬ ready G → model G = None ∨ tokenizer G = None.
Proof.
  unfold ready. destruct (model G), (tokenizer G); auto.
  intros Hn. destruct Hn. by split.
Qed.

(** Every way in which [generate_text] can end: a response; the 503 of
    the guard; a classified failure of a generation; or, on a hit only, an
    exception that no handler of the function catches. *)
Lemma generate_text_outcomes request w :
  match fst (generate_text G request w) with
  | Ok r => ready G
  | Raise (HTTPException c d) =>
      (¬ ready G ∧ c = 503 ∧ d = "Model not loaded")
      ∨ (ready G
         ∧ ((c = 507 ∧ d = "GPU memory insufficient")
            ∨ (c = 500 ∧ ∃ m, d = "Generation failed: " +:+ m)))
  | Raise (PyError m) =>
      ready G ∧ ∃ v w1, cache_read request w = (Ok v, w1) ∧ truthy v = true
  end.
Proof.
  set (Q := ∃ v w1, cache_read request w = (Ok v, w1) ∧ truthy v = true).
  destruct (model G) as [m|] eqn:Hm; [destruct (tokenizer G) as [tok|] eqn:Ht|].
  2, 3: rewrite unready_path; [simpl; left|];
        unfold ready; rewrite ?Hm, ?Ht; repeat split; try done;
        by intros [? ?].
  assert (ready G) as Hready by (unfold ready; by rewrite Hm, Ht).
  destruct (cache_read_returns request w) as (v & w1 & Hr).
  destruct (truthy v) eqn:Hv.
  - assert Q as HQ by (by exists v, w1).
    rewrite (hit_path G request w m tok v w1 Hm Ht Hr Hv). simpl.
    destruct v as [| | | | | |d]; simpl; try done.
    unfold response_of_dict. by repeat case_match.
  - rewrite (miss_path G request w m tok v w1 Hm Ht Hr Hv).
    assert (∀ e w',
              match fst (classify_failure (A := GenerationResponse.t) e w') with
              | Ok _ => ready G
              | Raise (HTTPException c d) =>
                  (¬ ready G ∧ c = 503 ∧ d = "Model not loaded")
                  ∨ (ready G
                     ∧ ((c = 507 ∧ d = "GPU memory insufficient")
                        ∨ (c = 500 ∧ ∃ m, d = "Generation failed: " +:+ m)))
              | Raise (PyError _) => ready G ∧ Q
              end) as Hcl.
    { intros e w'. destruct (classify_failure_cases e w') as [-> | ->];
        right; split; eauto. }
    destruct (engine_run G tok request) as [[text tokens]|e]; [|apply Hcl].
    simpl. destruct (response_of_dict _); [done|apply Hcl].
Qed.

(** The stored dict as the handler completes it on a hit. *)
Definition served (d : pydict) (w : World) : pydict :=
  PyDict.set "cached" (JBool true)
    (PyDict.set "processing_time" (JFloat (elapsed w)) d).

Lemma set_tasks_same w : background_tasks w = [] → set_tasks [] w = w.
Proof. destruct w. simpl. by intros ->. Qed.

Lemma engine_run_returns tok request text tokens :
  engine_run G tok request = Ok (text, tokens) →
  ∃ f result results ids,
    text_generator G = Some f
    ∧ f (GenerationRequest.prompt request) (gen_args tok request)
      = Ok (result :: results)
    ∧ PyDict.get "generated_text" result = Some text
    ∧ encode tok text = Ok ids
    ∧ tokens = Z.of_nat (length ids).
Proof.
  unfold engine_run, call_text_generator, first_item, getitem.
  destruct (text_generator G) as [f|]; [|done].
  destruct (f _ _) as [[|result results]|] eqn:Hf; try done.
  destruct (PyDict.get "generated_text" result) as [text'|] eqn:Hg; [|done].
  destruct (encode tok text') as [ids|] eqn:He; [|done].
  intros [= <- <-]. by exists f, result, results, ids.
Qed.

(** What a hit leaves behind, answered or not. *)
Lemma hit_effects request w m tok v w1 :
  model G = Some m → tokenizer G = Some tok →
  cache_read request w = (Ok v, w1) → truthy v = true →
  background_tasks (snd (generate_text G request w)) = background_tasks w
  ∧ only_read request w (snd (generate_text G request w)).
Proof.
  intros Hm Ht Hr Hv.
  pose proof (cache_read_frame request w) as (_ & _ & Hb).
  pose proof (cache_read_only_read request w) as Ho.
  rewrite Hr in Hb, Ho. simpl in Hb, Ho.
  rewrite (hit_path G request w m tok v w1 Hm Ht Hr Hv). simpl.
  destruct (setitem v _ _) as [c1|]; [|done].
  by destruct (setitem c1 _ _).
Qed.

(** A hit ends with a response or with an exception of Python, never
    with an [HTTPException]. *)
Lemma hit_outcome_cases request w m tok v w1 :
  model G = Some m → tokenizer G = Some tok →
  cache_read request w = (Ok v, w1) → truthy v = true →
  (∃ r, fst (generate_text G request w) = Ok r)
  ∨ (∃ msg, fst (generate_text G request w) = Raise (PyError msg)).
Proof.
  intros Hm Ht Hr Hv.
  rewrite (hit_path G request w m tok v w1 Hm Ht Hr Hv).
  destruct v; simpl; eauto.
  unfold response_of_dict. repeat case_match; eauto.
Qed.

(** X4. On a hit the engine is not needed: two processes that are both
    ready answer the request alike and leave the same world, whatever their
    pipelines and tokenizers are. *)
Theorem hit_needs_no_engine (G' : Globals) request w v w1 :
  ready G → ready G' →
  cache_read request w = (Ok v, w1) → truthy v = true →
  generate_text G request w = generate_text G' request w.
Proof.
  intros (m & tok & Hm & Ht)%ready_handles (m' & tok' & Hm' & Ht')%ready_handles
    Hr Hv.
  rewrite (hit_path G request w m tok v w1 Hm Ht Hr Hv).
  by rewrite (hit_path G' request w m' tok' v w1 Hm' Ht' Hr Hv).
Qed.

(** X5. A hit schedules nothing and sends the store nothing but the read.
    A stored dict is answered by the response built from it once the two
    fields are set; a stored value that is true but no dict ends the request
    with an exception. A hit that is not answered bypasses the failure
    classification: the route answers a bare 500. *)
Theorem hit_that_cannot_be_served request w v w1 :
  ready G →
  cache_read request w = (Ok v, w1) → truthy v = true →
  background_tasks (snd (generate_text G request w)) = background_tasks w
  ∧ only_read request w (snd (generate_text G request w))
  ∧ match v with
    | JDict d =>
        fst (generate_text G request w) = response_of_dict (served d w)
    | _ => ∃ msg, fst (generate_text G request w) = Raise (PyError msg)
    end
  ∧ ((∀ r, fst (generate_text G request w) ≠ Ok r) →
     background_tasks w = [] →
     ∀ body, validate_request body = Some request →
       fst (post_generate G body w)
       = ResponseError 500 "Internal Server Error").
Proof.
  intros (m & tok & Hm & Ht)%ready_handles Hr Hv.
  destruct (hit_effects request w m tok v w1 Hm Ht Hr Hv) as [Hb Ho].
  split; [done|]. split; [done|]. split.
  - rewrite (hit_path G request w m tok v w1 Hm Ht Hr Hv).
    destruct v; simpl; eauto.
  - intros Hno Hb0 body Hbody. unfold post_generate.
    rewrite Hbody, (set_tasks_same w Hb0).
    destruct (hit_outcome_cases request w m tok v w1 Hm Ht Hr Hv)
      as [[r Hok]|[msg Herr]]; [by destruct (Hno r)|].
    destruct (generate_text G request w) as [o w']. simpl in Herr.
    by rewrite Herr.
Qed.


(** X7. A response that was generated echoes the prompt of the request,
    names the device of the process, is marked as not cached and carries the
    time elapsed in the request. Its text is the [generated_text] of the
    first result of the pipeline, called with the parameters of the request
    as they came, the end-of-sequence token as pad token and
    [return_full_text=False]; its token count is the length of what the
    tokenizer encodes that text to. *)
Theorem generated_response_fields request w v w1 r :
  cache_read request w = (Ok v, w1) → truthy v = false →
  fst (generate_text G request w) = Ok r →
  GenerationResponse.prompt r = GenerationRequest.prompt request
  ∧ GenerationResponse.device_used r = DEVICE G
  ∧ GenerationResponse.cached r = false
  ∧ GenerationResponse.processing_time r = elapsed w
  ∧ ∃ tok f result results ids,
      tokenizer G = Some tok ∧ text_generator G = Some f
      ∧ f (GenerationRequest.prompt request)
          {| ga_max_new_tokens := GenerationRequest.max_new_tokens request;
             ga_temperature := GenerationRequest.temperature request;
             ga_top_p := GenerationRequest.top_p request;
             ga_do_sample := GenerationRequest.do_sample request;
             ga_pad_token_id := eos_token_id tok;
             ga_return_full_text := false |}
        = Ok (result :: results)
      ∧ PyDict.get "generated_text" result
        = Some (JStr (GenerationResponse.generated_text r))
      ∧ encode tok (JStr (GenerationResponse.generated_text r)) = Ok ids
      ∧ GenerationResponse.tokens_generated r = Z.of_nat (length ids).
Proof.
  intros Hr Hv Hok.
  destruct (ready_handles G (answered_ready G _ _ _ Hok))
    as (m & tok & Hm & Ht).
  rewrite (miss_path G request w m tok v w1 Hm Ht Hr Hv) in Hok.
  destruct (engine_run G tok request) as [[text tokens]|e] eqn:He.
  2: { by apply classify_failure_not_ok in Hok. }
  simpl in Hok. destruct (response_of_dict _) as [r'|e] eqn:Hresp.
  2: { by apply classify_failure_not_ok in Hok. }
  simpl in Hok. injection Hok as ->.
  destruct (response_of_generated_inv _ _ _ _ _ _ Hresp)
    as (s & -> & Hc & Hg & Hp & Hn & Hpr & Hd).
  destruct (engine_run_returns _ _ _ _ He)
    as (f & result & results & ids & Hf & Hcall & Hget & Henc & Hlen).
  repeat split; try done.
  exists tok, f, result, results, ids. rewrite Hg, Hn. by repeat split.
Qed.

End RequestPathMore.

(** ** Writing and reading entries *)

Section StoreFacts.

Context `{RT : Runtime}.

(** What a read returns when the server runs the command. *)
Lemma get_cached_response_value key w r0 :
  redis_client w = Some r0 → r_fault r0 (length (r_ops r0)) = None →
  fst (get_cached_response key w)
  = match r_data r0 !! key with
    | Some (_, s) =>
        if negb (String.eqb s "") then
          match json_loads s with
          | Ok v => Ok v
          | Raise _ => Ok JNone
          end
        else Ok JNone
    | None => Ok JNone
    end.
Proof.
  intros Hc Hf. unfold get_cached_response. rewrite Hc.
  unfold try_except, bind, redis_get, redis_command. rewrite Hc, Hf.
  destruct (r_data r0 !! key) as [[ttl s]|]; simpl; [|done].
  destruct (negb (String.eqb s "")); simpl; [|done].
  unfold lift. by destruct (json_loads s).
Qed.

(** What a write does to the client and to the log. *)
Lemma cache_response_effect key response ttl w r0 :
  redis_client w = Some r0 →
  let payload := Json.dumps float_repr false (JDict response) in
  let w' := snd (cache_response key response ttl w) in
  ∃ r1, redis_client w' = Some r1
        ∧ r_ops r1 = r_ops r0 ++ [OpSetex key ttl payload]
        ∧ r_fault r1 = r_fault r0
        ∧ match r_fault r0 (length (r_ops r0)) with
          | None =>
              r_data r1 = <[key := (ttl, payload)]> (r_data r0)
              ∧ logger w' = logger w
          | Some msg =>
              r_data r1 = r_data r0
              ∧ logger w' = logger w ++ [(WARNING, "Cache write failed: " +:+ msg)]
          end.
Proof.
  intros Hc. unfold cache_response. rewrite Hc.
  unfold try_except, redis_setex, redis_command. rewrite Hc.
  destruct (r_fault r0 (length (r_ops r0))); simpl; eexists; by repeat split.
Qed.

Lemma dumps_dict_not_empty (sort_keys : bool) (d : pydict) :
  String.eqb (Json.dumps float_repr sort_keys (JDict d)) "" = false.
Proof. done. Qed.

(** X8. With a server that runs every command, a write followed by a
    read of the same key returns the parse of the serialized response (a
    miss if that text does not parse), and a read of any other key returns
    what it returned before the write. *)
Theorem write_then_read key response ttl w :
  store_up w →
  let payload := Json.dumps float_repr false (JDict response) in
  let w' := snd (cache_response key response ttl w) in
  fst (get_cached_response key w')
  = match json_loads payload with
    | Ok v => Ok v
    | Raise _ => Ok JNone
    end
  ∧ (∀ key', key' ≠ key →
       fst (get_cached_response key' w') = fst (get_cached_response key' w)).
Proof.
  intros (r0 & Hc & Hup). simpl.
  destruct (cache_response_effect key response ttl w r0 Hc)
    as (r1 & Hc1 & _ & Hf1 & Hd1).
  rewrite Hup in Hd1. destruct Hd1 as [Hd1 _].
  split.
  - rewrite (get_cached_response_value key _ r1 Hc1)
      by (by rewrite Hf1, Hup).
    by rewrite Hd1, lookup_insert_eq, dumps_dict_not_empty.
  - intros key' Hne.
    rewrite (get_cached_response_value key' _ r1 Hc1)
      by (by rewrite Hf1, Hup).
    rewrite (get_cached_response_value key' w r0 Hc) by apply Hup.
    by rewrite Hd1, lookup_insert_ne.
Qed.

(** X9. A write that the server fails changes no entry and puts one
    warning with the text of the failure in the log; without a client a
    write changes nothing at all. *)
Theorem failed_write_changes_no_entry key response ttl w :
  (∀ r0 msg,
     redis_client w = Some r0 → r_fault r0 (length (r_ops r0)) = Some msg →
     ∃ r1, redis_client (snd (cache_response key response ttl w)) = Some r1
           ∧ r_data r1 = r_data r0
           ∧ logger (snd (cache_response key response ttl w))
             = logger w ++ [(WARNING, "Cache write failed: " +:+ msg)])
  ∧ (redis_client w = None → snd (cache_response key response ttl w) = w).
Proof.
  split.
  - intros r0 msg Hc Hf.
    destruct (cache_response_effect key response ttl w r0 Hc)
      as (r1 & Hc1 & _ & _ & Hd1).
    rewrite Hf in Hd1. destruct Hd1 as [Hd1 Hl]. by exists r1.
  - intros Hc. unfold cache_response. by rewrite Hc.
Qed.

End StoreFacts.

(** ** A request after another *)

Section Replay.

Context `{RT : Runtime}.
Variable G : Globals.

Lemma store_up_after_read request w :
  store_up w → store_up (snd (cache_read request w)).
Proof.
  intros (r0 & Hc & Hup).
  pose proof (cache_read_only_read request w) as Ho.
  unfold only_read in Ho. rewrite Hc in Ho.
  destruct Ho as (r1 & Hc1 & _ & _ & Hf).
  exists r1. split; [done|]. intros n. by rewrite Hf.
Qed.

(** What the read of a request returns from a server that runs it. *)
Lemma cache_read_value request w r0 :
  redis_client w = Some r0 → r_fault r0 (length (r_ops r0)) = None →
  fst (cache_read request w)
  = match r_data r0 !! key_of request with
    | Some (_, s) =>
        if negb (String.eqb s "") then
          match json_loads s with
          | Ok v => Ok v
          | Raise _ => Ok JNone
          end
        else Ok JNone
    | None => Ok JNone
    end.
Proof.
  intros Hc Hf. unfold cache_read.
  by rewrite (get_cached_response_value _ _ r0).
Qed.

Lemma run_one_task_world (t : Task) w :
  background_tasks w = [t] →
  snd (run_background_tasks w)
  = snd (cache_response (task_key t) (task_response t) (task_ttl t)
           (set_tasks [] w)).
Proof.
  intros Hb. unfold run_background_tasks. rewrite Hb.
  unfold run_tasks, bind, ret.
  pose proof (cache_response_returns (task_key t) (task_response t)
                (task_ttl t) (set_tasks [] w)) as Hok.
  destruct (cache_response _ _ _ _) as [o w']. simpl in *. by subst o.
Qed.

(** X10. Cold cache, then warm. Take a server that runs every command
    and a parser that gives back the dict serialized by the write. When a
    request is answered by a generation and its task has run, the same
    request is answered from the store: marked as cached, with the text, the
    token count, the prompt and the device of the first response, and with a
    processing time of its own. *)
Theorem second_request_is_served request w v w1 r1 :
  store_up w → background_tasks w = [] →
  cache_read request w = (Ok v, w1) → truthy v = false →
  fst (generate_text G request w) = Ok r1 →
  (let d1 := response_dict G request
               (JStr (GenerationResponse.generated_text r1))
               (GenerationResponse.processing_time r1)
               (GenerationResponse.tokens_generated r1) in
   json_loads (Json.dumps float_repr false (JDict d1)) = Ok (JDict d1)) →
  let w2 := snd (run_background_tasks (snd (generate_text G request w))) in
  ∃ r2, fst (generate_text G request w2) = Ok r2
    ∧ GenerationResponse.cached r2 = true
    ∧ GenerationResponse.generated_text r2
      = GenerationResponse.generated_text r1
    ∧ GenerationResponse.tokens_generated r2
      = GenerationResponse.tokens_generated r1
    ∧ GenerationResponse.prompt r2 = GenerationResponse.prompt r1
    ∧ GenerationResponse.device_used r2 = GenerationResponse.device_used r1
    ∧ GenerationResponse.processing_time r2 = elapsed w2.
Proof.
  intros Hup Hb0 Hr Hv Hok Hloads.
  destruct (ready_handles G (answered_ready G _ _ _ Hok))
    as (m & tok & Hm & Ht).
  pose proof (store_up_after_read request w Hup) as Hup1.
  pose proof (cache_read_frame request w) as (_ & _ & Hb1).
  rewrite Hr in Hup1, Hb1. simpl in Hup1, Hb1.
  rewrite (miss_path G request w m tok v w1 Hm Ht Hr Hv) in Hok |- *.
  destruct (engine_run G tok request) as [[text tokens]|e].
  2: { by apply classify_failure_not_ok in Hok. }
  simpl in Hok |- *. destruct (response_of_dict _) as [r'|e] eqn:Hresp.
  2: { by apply classify_failure_not_ok in Hok. }
  simpl in Hok |- *. injection Hok as ->.
  destruct (response_of_generated_inv _ _ _ _ _ _ Hresp)
    as (s & -> & Hc & Hg & Hp & Hn & Hpr & Hd).
  rewrite Hg, Hp, Hn in Hloads.
  set (d1 := response_dict G request (JStr s) (elapsed w) tokens) in *.
  set (wa := after_generation G request (JStr s) (elapsed w) tokens w1).
  assert (background_tasks wa = [write_task G request (JStr s) (elapsed w) tokens])
    as Htasks.
  { unfold wa. simpl. by rewrite Hb1, Hb0. }
  rewrite (run_one_task_world _ _ Htasks). simpl. fold d1.
  destruct Hup1 as (ra & Hca & Hfa).
  assert (redis_client (set_tasks [] wa) = Some ra) as Hca' by done.
  destruct (cache_response_effect (key_of request) d1 3600 _ ra Hca')
    as (rb & Hcb & _ & Hfb & Hdb).
  rewrite Hfa in Hdb. destruct Hdb as [Hdb _].
  set (w2 := snd (cache_response (key_of request) d1 3600 (set_tasks [] wa)))
    in *.
  assert (fst (cache_read request w2) = Ok (JDict d1)) as Hread.
  { rewrite (cache_read_value request w2 rb Hcb) by (by rewrite Hfb, Hfa).
    by rewrite Hdb, lookup_insert_eq, dumps_dict_not_empty, Hloads. }
  destruct (cache_read request w2) as [o w3] eqn:Hr2. simpl in Hread. subst o.
  rewrite (hit_path G request w2 m tok (JDict d1) w3 Hm Ht Hr2) by done.
  simpl. unfold response_of_dict, d1, response_dict.
  cbn [PyDict.get PyDict.set String.eqb Ascii.eqb Bool.eqb fst snd].
  rewrite pydantic_float_float, pydantic_bool_bool, pydantic_int_int.
  eexists. split; [reflexivity|]. simpl.
  by rewrite Hg, Hn, Hpr, Hd.
Qed.

(** X11. No entry of another request. Take a digest without collisions
    and a text of floats that names the float and holds no comma or brace.
    With a server that runs every command, what a request reads is not
    changed by a write under the key of a request that differs from it in
    the prompt or in one of the four parameters. *)
Theorem other_request_reads_the_same request request' response ttl w :
  (∀ a b, md5_hexdigest a = md5_hexdigest b → a = b) →
  (∀ x y, float_repr x = float_repr y → x = y) →
  (∀ x, PyStr.has_char "," (float_repr x) = false) →
  (∀ x, PyStr.has_char "{" (float_repr x) = false) →
  ¬ same_key_fields request request' →
  store_up w →
  fst (cache_read request'
         (snd (cache_response (key_of request) response ttl w)))
  = fst (cache_read request' w).
Proof.
  intros Hmd5 Hinj Hcomma Hbrace Hdiff (r0 & Hc & Hup).
  assert (key_of request ≠ key_of request') as Hkey.
  { unfold key_of, get_cache_key. intros E.
    apply (inj (String.app _)), Hmd5 in E.
    by apply Hdiff, cache_data_inj. }
  destruct (cache_response_effect (key_of request) response ttl w r0 Hc)
    as (r1 & Hc1 & _ & Hf1 & Hd1).
  rewrite Hup in Hd1. destruct Hd1 as [Hd1 _].
  rewrite (cache_read_value request' _ r1 Hc1) by (by rewrite Hf1, Hup).
  rewrite (cache_read_value request' w r0 Hc) by apply Hup.
  by rewrite Hd1, lookup_insert_ne.
Qed.

End Replay.

(** ** Start-up, the guard and the status endpoints *)

Section StatusFacts.

Context `{RT : Runtime} `{H : Host}.

Lemma ready_globals_of (h : Handles) :
  ready (globals_of h) ↔ h_model h ≠ None ∧ h_tokenizer h ≠ None.
Proof.
  unfold ready, globals_of. simpl.
  destruct (h_tokenizer h); simpl; naive_solver.
Qed.

(** X12. Start-up and the guard of [/generate], from a process without
    handles. [startup_event] returns exactly when the tokenizer loader, the
    model loader and [pipeline] all return, the pipeline being built from
    the model loaded and the tokenizer with its pad token; otherwise it
    raises the exception of the first of the three that raises. Once it has
    returned, no request is answered 503. *)
Theorem startup_and_the_guard (w : World) request w2 :
  let o := (startup_event no_handles w).1.1 in
  let G := globals_of (startup_event no_handles w).1.2 in
  (o = Ok tt
   ↔ ∃ t m g,
       tokenizer_from_pretrained MODEL_NAME = Ok t
       ∧ model_from_pretrained MODEL_NAME (model_kwargs_for DEVICE_at_import)
         = Ok m
       ∧ pipeline "text-generation" m (with_pad_token t)
           (dtype_for DEVICE_at_import)
         = Ok g)
  ∧ (o = Ok tt →
     fst (generate_text G request w2)
     ≠ Raise (HTTPException 503 "Model not loaded"))
  ∧ (∀ e, tokenizer_from_pretrained MODEL_NAME = Raise e → o = Raise e)
  ∧ (∀ t e,
       tokenizer_from_pretrained MODEL_NAME = Ok t →
       model_from_pretrained MODEL_NAME (model_kwargs_for DEVICE_at_import)
       = Raise e →
       o = Raise e)
  ∧ (∀ t m e,
       tokenizer_from_pretrained MODEL_NAME = Ok t →
       model_from_pretrained MODEL_NAME (model_kwargs_for DEVICE_at_import)
       = Ok m →
       pipeline "text-generation" m (with_pad_token t)
         (dtype_for DEVICE_at_import)
       = Raise e →
       o = Raise e).
Proof.
  unfold startup_event.
  pose proof (initialize_model_cases no_handles w) as Hc.
  destruct (initialize_model no_handles w) as [[o h'] w']. simpl.
  destruct (tokenizer_from_pretrained MODEL_NAME) as [t|e0].
  2: { destruct Hc as [-> ->]. split; [|split; [done|]].
       - split; [done|]. by intros (t & m & g & ? & _).
       - split; [by intros e [= ->]|]. by split. }
  destruct Hc as [Ht Hc].
  destruct (model_from_pretrained _ _) as [m|e0].
  2: { destruct Hc as (-> & Hm & _). split; [|split; [done|]].
       - split; [done|]. by intros (t' & m & g & _ & ? & _).
       - split; [done|]. split; [by intros t' e _ [= ->]|]. done. }
  destruct Hc as [Hm Hc].
  assert (ready (globals_of h')) as Hready.
  { apply ready_globals_of. by rewrite Hm, Ht. }
  destruct (pipeline _ _ _ _) as [g|e0] eqn:Hp.
  - destruct Hc as [-> Hg]. split; [|split].
    + split; [|done]. intros _. by exists t, m, g.
    + intros _ E.
      pose proof (generate_text_outcomes (globals_of h') request w2) as Hout.
      rewrite E in Hout. destruct Hout as [(Hn & _)|(_ & [[? _]|[? _]])]; done.
    + split; [done|]. split; [done|].
      intros t' m' e [= <-] [= <-] E. by rewrite Hp in E.
  - destruct Hc as [-> Hg]. split; [|split; [done|]].
    + split; [done|]. intros (t' & m' & g & [= <-] & [= <-] & E).
      by rewrite Hp in E.
    + split; [done|]. split; [done|].
      intros t' m' e [= <-] [= <-] E. rewrite Hp in E. by injection E as ->.
Qed.

Lemma get_after_update_other (k : string) (d other : pydict) :
  ¬ In k (map fst other) →
  PyDict.get k (dict_update d other) = PyDict.get k d.
Proof.
  unfold dict_update. revert d.
  induction other as [|[k' v'] other IH]; intros d Hk; simpl; [done|].
  rewrite IH by (intros ?; apply Hk; by right).
  apply dict_get_set_ne. intros ->. apply Hk. by left.
Qed.

(** X13. [/health] against the process. The status is always
    ["healthy"]. With handles in the order of [initialize_model], the
    [model_loaded] flag is true exactly when [/generate] passes its guard,
    and a request is answered 503 exactly when the flag is false. The
    [cache_available] flag says whether a client is set, so after a start-up
    whose [ping] failed it is true. *)
Theorem health_against_the_process (h : Handles) (w : World) :
  handles_in_order h →
  let G := globals_of h in
  PyDict.get "status" (health_check G w) = Some (JStr "healthy")
  ∧ (PyDict.get "model_loaded" (health_check G w) = Some (JBool true)
     ∧ (∀ request w2,
          fst (generate_text G request w2)
          ≠ Raise (HTTPException 503 "Model not loaded"))
     ∨ PyDict.get "model_loaded" (health_check G w) = Some (JBool false)
       ∧ (∀ request w2,
            fst (generate_text G request w2)
            = Raise (HTTPException 503 "Model not loaded")))
  ∧ (PyDict.get "cache_available" (health_check G w) = Some (JBool true)
     ↔ redis_client w ≠ None)
  ∧ (∀ url c,
       getenv "CACHE_URL" = Some url → url ≠ "" → redis_from_url url = Ok c →
       PyDict.get "cache_available"
         (health_check G (snd (connect_cache w)))
       = Some (JBool true)).
Proof.
  intros [Hm Hg]. simpl.
  assert (∀ k w', ¬ In k ["gpu_name"; "gpu_memory_allocated"; "gpu_memory_reserved"] →
            PyDict.get k (health_check (globals_of h) w')
            = PyDict.get k
                [ ("status", JStr "healthy"); ("model", JStr MODEL_NAME);
                  ("device", JStr DEVICE_at_import);
                  ("gpu_available", JBool (is_available cuda));
                  ("model_loaded", JBool (is_not_None (h_model h)));
                  ("cache_available", JBool (is_not_None (redis_client w'))) ])
    as Hget.
  { intros k w' Hk. unfold health_check.
    destruct (is_available cuda); [|done].
    by rewrite get_after_update_other. }
  assert (∀ k, k = "status" ∨ k = "model_loaded" ∨ k = "cache_available" →
            ¬ In k ["gpu_name"; "gpu_memory_allocated"; "gpu_memory_reserved"])
    as Hk.
  { intros k [-> | [-> | ->]] Hin; simpl in Hin; naive_solver. }
  rewrite !Hget by (apply Hk; auto). simpl.
  split; [done|]. split; [|split].
  - destruct (h_model h) as [m|] eqn:Hmodel; simpl.
    + left. split; [done|]. intros request w2 E.
      assert (ready (globals_of h)) as Hready.
      { apply ready_globals_of. rewrite Hmodel. split; [done|]. by apply Hm. }
      pose proof (generate_text_outcomes (globals_of h) request w2) as Hout.
      rewrite E in Hout. destruct Hout as [(Hn & _)|(_ & [[? _]|[? _]])]; done.
    + right. split; [done|]. intros request w2.
      rewrite unready_path; [done|]. intros [? _]. done.
  - destruct (redis_client w); simpl; naive_solver.
  - intros url c Hurl Hne Hfrom.
    unfold connect_cache, try_except. rewrite Hurl.
    apply String.eqb_neq in Hne. rewrite Hne. simpl.
    unfold bind, lift. rewrite Hfrom. simpl.
    by destruct (redis_ping c) as [[]|e].
Qed.

(** X14. The three status endpoints agree on the model and the device.
    [/health] carries its three GPU fields exactly when it reports
    [gpu_available], [/metrics] carries its two under the same condition,
    and [/metrics] reports [requests_cached = 0] in every state. *)
Theorem status_endpoints_agree (G : Globals) (w : World) :
  (PyDict.get "model" (root G) = Some (JStr MODEL_NAME)
   ∧ PyDict.get "model" (health_check G w) = Some (JStr MODEL_NAME)
   ∧ PyDict.get "model" (metrics G) = Some (JStr MODEL_NAME))
  ∧ (PyDict.get "device" (root G) = Some (JStr (DEVICE G))
     ∧ PyDict.get "device" (health_check G w) = Some (JStr (DEVICE G))
     ∧ PyDict.get "device" (metrics G) = Some (JStr (DEVICE G)))
  ∧ (∀ k, In k ["gpu_name"; "gpu_memory_allocated"; "gpu_memory_reserved"] →
          (PyDict.get k (health_check G w) ≠ None
           ↔ PyDict.get "gpu_available" (health_check G w)
             = Some (JBool true)))
  ∧ (∀ k, In k ["gpu_memory_used"; "gpu_temperature"] →
          (PyDict.get k (metrics G) ≠ None
           ↔ PyDict.get "gpu_available" (health_check G w)
             = Some (JBool true)))
  ∧ PyDict.get "requests_cached" (metrics G) = Some (JInt 0).
Proof.
  unfold root, health_check, metrics, dict_update.
  destruct (is_available cuda); simpl.
  - repeat split; try done.
    all: intros; by (destruct H0 as [<-|[<-|[<-|[]]]] || destruct H0 as [<-|[<-|[]]]).
  - repeat split; try done.
    all: try (intros; exfalso;
              (destruct H0 as [<-|[<-|[<-|[]]]] || destruct H0 as [<-|[<-|[]]]);
              done).
Qed.

End StatusFacts.

(** ** What reaches the handler *)

Section ValidationMore.

Lemma between_is_number lo hi x :
  PrimFloat.leb lo nan = false → PrimFloat.leb infinity hi = false →
  PrimFloat.leb lo neg_infinity = false →
  between lo hi x → is_number x.
Proof.
  intros Hnan Hinf Hninf [Hlo Hhi]. repeat split; intros ->; congruence.
Qed.

(** X15. Every request that validation lets through, defaults included,
    has a prompt of 1 to 2000 characters, [max_new_tokens] within [1,500],
    and a temperature and a [top_p] that are numbers within [0.1,2.0] and
    [0.1,1.0]: NaN and the infinities never reach the handler. *)
Theorem validated_request_bounds (b : RawBody) (r : GenerationRequest.t) :
  validate_request b = Some r →
  (1 ≤ String.length (GenerationRequest.prompt r) ≤ 2000)%nat
  ∧ 1 ≤ GenerationRequest.max_new_tokens r ≤ 500
  ∧ between 0.1 2.0 (GenerationRequest.temperature r)
  ∧ between 0.1 1.0 (GenerationRequest.top_p r)
  ∧ is_number (GenerationRequest.temperature r)
  ∧ is_number (GenerationRequest.top_p r).
Proof.
  intros (Hp & Hn & Ht & Htp & _)%validate_request_spec.
  assert (1 ≤ GenerationRequest.max_new_tokens r ≤ 500) as Hn'.
  { unfold field_ok in Hn. destruct (rb_max_new_tokens b); [naive_solver|].
    rewrite Hn. lia. }
  assert (between 0.1 2.0 (GenerationRequest.temperature r)) as Ht'.
  { unfold field_ok in Ht. destruct (rb_temperature b); [naive_solver|].
    rewrite Ht. by split. }
  assert (between 0.1 1.0 (GenerationRequest.top_p r)) as Htp'.
  { unfold field_ok in Htp. destruct (rb_top_p b); [naive_solver|].
    rewrite Htp. by split. }
  destruct Hp as [_ Hp].
  split; [done|]. split; [done|]. split; [done|]. split; [done|].
  split; (eapply between_is_number; [| | |eassumption]); reflexivity.
Qed.

End ValidationMore.

(** ** The client script *)

Section ScriptFacts.

Import TestApi.
Context `{E : Env}.

Ltac run_script :=
  unfold bind, try_except, print, send, lift, ret, time_time, time_sleep;
  simpl;
  repeat (case_match; simpl; simplify_eq; try done).

Lemma check_root_runs base c :
  fst (check_root base c) = Returns tt
  ∧ sent (snd (check_root base c)) = sent c ++ [GET (base +:+ "/") 10].
Proof. unfold check_root. by run_script. Qed.

Lemma check_metrics_runs base c :
  fst (check_metrics base c) = Returns tt
  ∧ sent (snd (check_metrics base c))
    = sent c ++ [GET (base +:+ "/metrics") 10].
Proof. unfold check_metrics. by run_script. Qed.

Lemma check_generation_runs base i test_case c :
  fst (check_generation base i test_case c) = Returns tt
  ∧ sent (snd (check_generation base i test_case c))
    = sent c ++ [POST (base +:+ "/generate") test_case json_headers 60].
Proof. unfold check_generation. by run_script. Qed.

Lemma bind_returns {A B} (m : T A) (k : A → T B) c a :
  fst (m c) = Returns a → bind m k c = k a (snd (m c)).
Proof. unfold bind. destruct (m c) as [o c']. simpl. by intros ->. Qed.

Lemma check_generations_runs base i cases c :
  fst (check_generations base i cases c) = Returns tt
  ∧ sent (snd (check_generations base i cases c))
    = sent c ++ map (fun test_case =>
                       POST (base +:+ "/generate") test_case json_headers 60)
                  cases.
Proof.
  revert i c. induction cases as [|tc rest IH]; intros i c; simpl.
  { by rewrite app_nil_r. }
  destruct (check_generation_runs base i tc c) as [Hf Hs].
  rewrite (bind_returns _ _ c tt Hf).
  destruct (IH (i + 1) (snd (check_generation base i tc c))) as [Hf' Hs'].
  split; [done|]. by rewrite Hs', Hs, <-app_assoc.
Qed.

Lemma check_cache_runs base c :
  fst (check_cache base c) = Returns tt
  ∧ sent (snd (check_cache base c))
    = sent c ++ [cache_request base]
      ++ (if second_follows (http (sent c) (cache_request base))
          then [cache_request base] else []).
Proof.
  unfold check_cache, second_follows, cache_request.
  unfold bind, try_except, print, send, lift, ret, time_sleep. simpl.
  destruct (http (sent c) _) as [reply|e]; simpl; [|done].
  destruct (status_code reply =? 200); simpl; [|done].
  destruct (json reply) as [[| | | | | |d]|e]; simpl; try done.
  destruct (fmt_2f_value _) as [t1|e]; simpl; [|done].
  destruct (http _ _) as [reply2|e]; simpl; [|by rewrite <-app_assoc].
  destruct (status_code reply2 =? 200); simpl; [|by rewrite <-app_assoc].
  destruct (json reply2) as [[| | | | | |d2]|e]; simpl;
    try by rewrite <-app_assoc.
  destruct (fmt_2f_value _) as [t2|e]; simpl; by rewrite <-app_assoc.
Qed.

Lemma check_health_runs base c :
  fst (check_health base c)
  = Returns (health_passes (http (sent c) (GET (base +:+ "/health") 30)))
  ∧ sent (snd (check_health base c))
    = sent c ++ [GET (base +:+ "/health") 30].
Proof.
  unfold check_health, health_passes.
  unfold bind, try_except, print, send, lift, ret. simpl.
  destruct (http (sent c) _) as [reply|e]; simpl; [|done].
  destruct (status_code reply =? 200); simpl; [|done].
  destruct (json reply) as [[| | | | | |d]|e]; simpl; try done.
  by destruct (truthy _).
Qed.

(** X16. The verdict of the script is the health check and nothing
    else. [test_api] never raises; it returns [True] exactly when the
    request to [/health] is answered with status 200 and a JSON object;
    otherwise it returns [False] after that one request. No later step,
    whatever it meets, changes the verdict. *)
Theorem test_api_verdict (base : string) (c : Console) :
  fst (test_api base c)
  = Returns (health_passes (http (sent c) (GET (base +:+ "/health") 30)))
  ∧ (health_passes (http (sent c) (GET (base +:+ "/health") 30)) = false →
     sent (snd (test_api base c)) = sent c ++ [GET (base +:+ "/health") 30]).
Proof.
  unfold test_api.
  rewrite (bind_returns (print _) _ c tt eq_refl).
  set (c0 := snd (print ("Testing LLM API at: " +:+ base) c)).
  destruct (check_health_runs base c0) as [Hf Hs].
  change (sent c0) with (sent c) in Hf, Hs.
  rewrite (bind_returns _ _ c0 _ Hf).
  destruct (health_passes _); [|by split].
  split; [|done].
  rewrite (bind_returns _ _ _ tt (proj1 (check_root_runs base _))).
  rewrite (bind_returns _ _ _ tt (proj1 (check_metrics_runs base _))).
  rewrite (bind_returns (print _) _ _ tt eq_refl).
  rewrite (bind_returns _ _ _ tt
             (proj1 (check_generations_runs base 1 test_prompts _))).
  rewrite (bind_returns _ _ _ tt (proj1 (check_cache_runs base _))).
  by rewrite (bind_returns (print _) _ _ tt eq_refl).
Qed.

(** X17. The requests of a run that passes the health check, in order:
    [GET /health], [GET /], [GET /metrics], one [POST /generate] for each of
    the three test prompts, and the cache test. The cache test sends its
    request once, and a second time exactly when the first answer has status
    200 and a JSON object whose processing time formats. A step that fails
    neither stops the run nor repeats a request. *)
Theorem test_api_requests (base : string) (c : Console) :
  health_passes (http (sent c) (GET (base +:+ "/health") 30)) = true →
  sent (snd (test_api base c))
  = sent c ++ first_six base ++ [cache_request base]
    ++ (if second_follows
             (http (sent c ++ first_six base) (cache_request base))
        then [cache_request base] else []).
Proof.
  intros Hh. unfold test_api.
  rewrite (bind_returns (print _) _ c tt eq_refl).
  set (c0 := snd (print ("Testing LLM API at: " +:+ base) c)).
  destruct (check_health_runs base c0) as [Hf Hs].
  change (sent c0) with (sent c) in Hf, Hs.
  rewrite (bind_returns _ _ c0 _ Hf), Hh.
  set (c1 := snd (check_health base c0)) in *.
  destruct (check_root_runs base c1) as [Hr Hrs].
  rewrite (bind_returns _ _ _ tt Hr).
  set (c2 := snd (check_root base c1)) in *.
  destruct (check_metrics_runs base c2) as [Hm Hms].
  rewrite (bind_returns _ _ _ tt Hm).
  set (c3 := snd (check_metrics base c2)) in *.
  rewrite (bind_returns (print _) _ _ tt eq_refl).
  set (c4 := snd (print (nl +:+ "4. Testing text generation...") c3)).
  destruct (check_generations_runs base 1 test_prompts c4) as [Hg Hgs].
  change (sent c4) with (sent c3) in Hgs.
  rewrite (bind_returns _ _ _ tt Hg).
  set (c5 := snd (check_generations base 1 test_prompts c4)) in *.
  destruct (check_cache_runs base c5) as [Hc Hcs].
  rewrite (bind_returns _ _ _ tt Hc).
  rewrite (bind_returns (print _) _ _ tt eq_refl).
  assert (sent c5 = sent c ++ first_six base) as H5.
  { rewrite Hgs, Hms, Hrs, Hs. unfold first_six. simpl.
    by rewrite <-!app_assoc. }
  simpl. rewrite Hcs, H5, <-app_assoc. reflexivity.
Qed.

Lemma rstrip_slash_spec (s : string) :
  ends_in_slash (rstrip_slash s) = false
  ∧ ∃ k, s = rstrip_slash s +:+ slashes k.
Proof.
  induction s as [|a s [IHe [k IHk]]]; simpl.
  { split; [done|]. by exists 0%nat. }
  destruct (rstrip_slash s) as [|b rest] eqn:Hr.
  - destruct (Ascii.eqb a "/") eqn:Ha.
    + split; [done|]. apply Ascii.eqb_eq in Ha as ->.
      exists (S k). simpl. by rewrite IHk.
    + split; [by simpl; rewrite Ha|]. exists k. by rewrite IHk.
  - split; [done|]. exists k. by rewrite IHk at 1.
Qed.

Lemma rstrip_slashes (k : nat) : rstrip_slash (slashes k) = "".
Proof. induction k as [|k IH]; simpl; [done|]. by rewrite IH. Qed.

Lemma rstrip_app_slashes (s : string) (k : nat) :
  rstrip_slash (s +:+ slashes k) = rstrip_slash s.
Proof.
  induction s as [|a s IH].
  - apply rstrip_slashes.
  - rewrite app_cons. simpl. by rewrite IH.
Qed.

(** X18. [main] exits with status 1 without sending a request when it
    does not get exactly one argument, or when the argument without its
    trailing slashes does not start with [http://] or [https://]; a scheme
    followed by slashes only is such an argument. Otherwise it runs
    [test_api] on the argument up to its trailing slashes, a base URL that
    does not end in a slash, and returns whatever the verdict of the run. *)
Theorem main_runs_the_script (argv : list string) (c : Console) :
  (length argv ≠ 2%nat →
   fst (main argv c) = Some 1 ∧ sent (snd (main argv c)) = sent c)
  ∧ (∀ prog url,
       argv = [prog; url] →
       (has_scheme (rstrip_slash url) = false →
        fst (main argv c) = Some 1 ∧ sent (snd (main argv c)) = sent c)
       ∧ (has_scheme (rstrip_slash url) = true →
          ∃ base k,
            url = base +:+ slashes k ∧ ends_in_slash base = false
            ∧ has_scheme base = true
            ∧ main argv c = (None, snd (test_api base c)))
       ∧ (∀ k, url = "http://" +:+ slashes k ∨ url = "https://" +:+ slashes k →
               fst (main argv c) = Some 1)).
Proof.
  split.
  - intros Hlen. destruct argv as [|a [|b [|d rest]]]; simpl in *; done.
  - intros prog url ->. simpl.
    destruct (rstrip_slash_spec url) as [He [k Hk]].
    split; [|split].
    + by intros ->.
    + intros Hs. rewrite Hs. simpl.
      by exists (rstrip_slash url), k.
    + intros k' [-> | ->].
      * change ("http://" +:+ slashes k') with ("http:" +:+ slashes (2 + k')).
        by rewrite rstrip_app_slashes.
      * change ("https://" +:+ slashes k')
          with ("https:" +:+ slashes (2 + k')).
        by rewrite rstrip_app_slashes.
Qed.

End ScriptFacts.

(** ** The statements at the sample deployment *)

Section Witnesses.

Import Sample.

Example dumps_sorts_keys_and_escapes :
Json.dumps (fun _ => "0.7") true
  (JDict [("top_p", JFloat 0.7); ("do_sample", JBool true);
          ("max_new_tokens", JInt 100); ("s", JStr "a\b")])
= "{" +:+ Json.quote "do_sample" +:+ ": true, " +:+ Json.quote "max_new_tokens"
  +:+ ": 100, " +:+ Json.quote "s" +:+ ": " +:+ String Json.dquote "a\\b"
  +:+ String Json.dquote ", " +:+ Json.quote "top_p" +:+ ": 0.7}".
Proof. vm_compute. reflexivity. Qed.

Example sample_key :
Sample.key = "llm:ping:{" +:+ Json.quote "do_sample" +:+ ": true, "
  +:+ Json.quote "max_new_tokens" +:+ ": 100, " +:+ Json.quote "temperature"
  +:+ ": +6305039478318694p-53, " +:+ Json.quote "top_p"
  +:+ ": +8106479329266893p-53}".
Proof. vm_compute. reflexivity. Qed.

Example sample_cold_run :
fst (generate_text Sample.loaded Sample.request Sample.cold)
= Ok {| GenerationResponse.prompt := "ping";
        GenerationResponse.generated_text := "pong";
        GenerationResponse.processing_time := 3;
        GenerationResponse.device_used := "cuda";
        GenerationResponse.cached := false;
        GenerationResponse.tokens_generated := 4 |}.
Proof. vm_compute. reflexivity. Qed.

Example sample_warm_run :
fst (generate_text Sample.loaded Sample.request Sample.warm)
= Ok {| GenerationResponse.prompt := "ping";
        GenerationResponse.generated_text := "pong";
        GenerationResponse.processing_time := 3;
        GenerationResponse.device_used := "cuda";
        GenerationResponse.cached := true;
        GenerationResponse.tokens_generated := 1 |}.
Proof. vm_compute. reflexivity. Qed.

(** A stored text that does not parse: the request is generated afresh and
    the log holds the warning of the gateway. *)
Example garbled_entry_is_a_miss :
  fst (generate_text loaded request garbled) = Ok cold_response
  ∧ logger (snd (cache_read request garbled))
    = [(WARNING, "Cache read failed: Expecting value: line 1 column 1 (char 0)")].
Proof. split; vm_compute; reflexivity. Qed.

(** A stored text that parses to something other than a dict is handed
    on by the gateway as it is; the handler then fails outside its
    [try], and the route answers a bare 500. *)
Example list_entry_is_not_absorbed :
  let w := world_with (Some (redis_with {[ key := (3600, "[1]") ]}
                               (fun _ => None))) in
  fst (cache_read request w) = Ok (JList [JInt 1])
  ∧ fst (post_generate loaded body w)
    = ResponseError 500 "Internal Server Error".
Proof. split; vm_compute; reflexivity. Qed.

(** A request answered from the empty store, then the run of its task:
    the store has seen the read and the write of the assembled response. *)
Example cold_then_warm :
  let w1 := snd (post_generate loaded body cold) in
  let w2 := snd (run_background_tasks w1) in
  fst (post_generate loaded body cold) = Response200 cold_response
  ∧ (r_ops <$> redis_client w2)
    = Some [OpGet key;
            OpSetex key 3600
              (Json.dumps float_repr false
                 (JDict (response_dict loaded request (JStr "pong") 3 4)))]
  ∧ background_tasks w2 = [].
Proof. repeat split; vm_compute; reflexivity. Qed.

(** An entry that counts the tokens in a text is served, with the count
    as a number: the stored value itself is not what the response holds. *)
Lemma stored_count_is_converted :
  cache_read request texty = (Ok (JDict texty_dict), snd (cache_read request texty))
  ∧ truthy (JDict texty_dict) = true
  ∧ fst (generate_text loaded request texty) = Ok texty_response
  ∧ fst (post_generate loaded body texty) = Response200 texty_response
  ∧ PyDict.get "tokens_generated" texty_dict = Some (JStr "7")
  ∧ ¬ (∃ d, JDict texty_dict = JDict d
         ∧ GenerationResponse.cached texty_response = true
         ∧ GenerationResponse.processing_time texty_response = elapsed texty
         ∧ PyDict.get "prompt" d
           = Some (JStr (GenerationResponse.prompt texty_response))
         ∧ PyDict.get "generated_text" d
           = Some (JStr (GenerationResponse.generated_text texty_response))
         ∧ PyDict.get "device_used" d
           = Some (JStr (GenerationResponse.device_used texty_response))
         ∧ PyDict.get "tokens_generated" d
           = Some (JInt (GenerationResponse.tokens_generated texty_response))).
Proof.
  do 5 (split; [vm_compute; reflexivity|]).
  intros (d & [= <-] & _ & _ & _ & _ & _ & Hn). discriminate Hn.
Qed.

Lemma cache_hit_recomputes_witness :
  (∃ d, JDict stored_dict = JDict d
     ∧ GenerationResponse.cached warm_response = true
     ∧ GenerationResponse.processing_time warm_response = elapsed warm
     ∧ PyDict.get "prompt" d
       = Some (JStr (GenerationResponse.prompt warm_response))
     ∧ PyDict.get "generated_text" d
       = Some (JStr (GenerationResponse.generated_text warm_response))
     ∧ PyDict.get "device_used" d
       = Some (JStr (GenerationResponse.device_used warm_response))
     ∧ (∃ n, PyDict.get "tokens_generated" d = Some n
             ∧ pydantic_int n
               = Some (GenerationResponse.tokens_generated warm_response))
     ∧ (∀ k, PyDict.get "tokens_generated" d = Some (JInt k) →
             GenerationResponse.tokens_generated warm_response = k))
  ∧ (∃ d, JDict texty_dict = JDict d
       ∧ GenerationResponse.cached texty_response = true
       ∧ GenerationResponse.processing_time texty_response = elapsed texty
       ∧ PyDict.get "prompt" d
         = Some (JStr (GenerationResponse.prompt texty_response))
       ∧ PyDict.get "generated_text" d
         = Some (JStr (GenerationResponse.generated_text texty_response))
       ∧ PyDict.get "device_used" d
         = Some (JStr (GenerationResponse.device_used texty_response))
       ∧ (∃ n, PyDict.get "tokens_generated" d = Some n
               ∧ pydantic_int n
                 = Some (GenerationResponse.tokens_generated texty_response))
       ∧ (∀ k, PyDict.get "tokens_generated" d = Some (JInt k) →
               GenerationResponse.tokens_generated texty_response = k)).
Proof.
  split.
  - apply (cache_hit_recomputes loaded request warm (JDict stored_dict)
             (snd (cache_read request warm)) warm_response);
      vm_compute; reflexivity.
  - apply (cache_hit_recomputes loaded request texty (JDict texty_dict)
             (snd (cache_read request texty)) texty_response);
      vm_compute; reflexivity.
Defined.

Lemma unready_skips_cache_witness :
  fst (generate_text unloaded request warm)
  = Raise (HTTPException 503 "Model not loaded")
  ∧ redis_client (snd (generate_text unloaded request warm))
    = redis_client warm
  ∧ (∀ b, validate_request b = Some request →
       fst (post_generate unloaded b warm)
       = ResponseError 503 "Model not loaded"
       ∧ redis_client (snd (post_generate unloaded b warm))
         = redis_client warm).
Proof.
  apply (unready_skips_cache unloaded request warm). left. reflexivity.
Defined.

Lemma stream_is_ignored_witness :
  key_of request = key_of streamed
  ∧ (∀ t, gen_args t request = gen_args t streamed)
  ∧ generate_text loaded request warm = generate_text loaded streamed warm.
Proof.
  apply (stream_is_ignored loaded request streamed warm).
  repeat split; reflexivity.
Defined.

Lemma failures_classified_witness :
  fst (generate_text loaded (request_for "big") cold)
  = Raise (HTTPException 507 "GPU memory insufficient")
  ∧ fst (generate_text loaded (request_for "bad") cold)
    = Raise (HTTPException 500 "Generation failed: index out of range in self")
  ∧ fst (generate_text unloaded request cold)
    = Raise (HTTPException 503 "Model not loaded").
Proof.
  split; [|split].
  - apply (proj2 (failures_classified loaded (request_for "big") cold)
             LoadedModel tok JNone (snd (cache_read (request_for "big") cold))
             (PyError "CUDA Out Of Memory. Tried to allocate 2.00 GiB"));
      try (vm_compute; reflexivity).
    exists "CUDA ", "Out Of Memory", ". Tried to allocate 2.00 GiB".
    split; reflexivity.
  - apply (proj2 (failures_classified loaded (request_for "bad") cold)
             LoadedModel tok JNone (snd (cache_read (request_for "bad") cold))
             (PyError "index out of range in self"));
      try (vm_compute; reflexivity).
    intros H. apply contains_lower_iff in H. vm_compute in H. discriminate H.
  - apply (proj1 (failures_classified unloaded request cold)).
    left. reflexivity.
Defined.

Lemma failed_generation_writes_nothing_witness :
  background_tasks (snd (generate_text loaded (request_for "bad") cold))
  = background_tasks cold
  ∧ only_read (request_for "bad") cold
      (snd (generate_text loaded (request_for "bad") cold)).
Proof.
  apply (proj1 (failed_generation_writes_nothing loaded (request_for "bad") cold)
           LoadedModel tok JNone (snd (cache_read (request_for "bad") cold))
           (PyError "index out of range in self"));
    vm_compute; reflexivity.
Defined.

Lemma generation_schedules_one_write_witness :
  ∃ tok text tokens,
    tokenizer loaded = Some tok
    ∧ engine_run loaded tok request = Ok (JStr text, tokens)
    ∧ let task := write_task loaded request (JStr text) (elapsed cold) tokens in
      let w' := snd (generate_text loaded request cold) in
      background_tasks w' = [task]
      ∧ task_key task = key_of request ∧ task_ttl task = 3600
      ∧ response_of_dict (task_response task) = Ok cold_response
      ∧ only_read request cold w'
      ∧ fst (run_background_tasks w') = Ok tt
      ∧ match redis_client w' with
        | None => redis_client (snd (run_background_tasks w')) = None
        | Some r0 =>
            let payload :=
              Json.dumps float_repr false (JDict (task_response task)) in
            ∃ r1, redis_client (snd (run_background_tasks w')) = Some r1
                  ∧ r_ops r1 = r_ops r0 ++ [OpSetex (key_of request) 3600 payload]
                  ∧ (r_fault r0 (length (r_ops r0)) = None →
                     r_data r1 = <[key_of request := (3600, payload)]> (r_data r0))
        end.
Proof.
  apply (generation_schedules_one_write loaded request cold JNone
           (snd (cache_read request cold)) cold_response);
    vm_compute; reflexivity.
Defined.



Lemma get_cache_key_order_independent_witness :
  Json.dumps float_repr true (JDict (cache_params request))
  = Json.dumps float_repr true (JDict params_reordered)
  ∧ get_cache_key "ping" (cache_params request)
    = get_cache_key "ping" params_reordered.
Proof.
  apply (get_cache_key_order_independent "ping" (cache_params request)
           params_reordered).
  - apply (bool_decide_unpack _). vm_compute. exact I.
  - exact (Permutation_rev (cache_params request)).
Defined.

Lemma cache_key_separates_witness :
  cache_data "ping" (cache_params request)
    ≠ cache_data "pong" (cache_params (request_for "pong"))
  ∧ get_cache_key "ping" (cache_params request)
      ≠ get_cache_key "pong" (cache_params (request_for "pong")).
Proof.
  destruct (cache_key_separates (RT := runtime) request (request_for "pong")
              float_text_inj
              (λ x, float_text_without "," x eq_refl)
              (λ x, float_text_without "{" x eq_refl)) as [Hd Hk].
  - intros [Hp _]. discriminate Hp.
  - split; [exact Hd|]. apply Hk. intros a b E. exact E.
Defined.


End Witnesses.

(** ** Further statements at the sample deployment *)

Section MoreWitnesses.

Lemma initialize_model_handles_witness :
  handles_in_order
    (initialize_model (H := SampleHost.host) no_handles Sample.disabled).1.2
  ∧ ((initialize_model (H := SampleHost.host) no_handles Sample.disabled).1.1
     = Ok tt →
     h_tokenizer
       (initialize_model (H := SampleHost.host) no_handles Sample.disabled).1.2
     ≠ None
     ∧ h_model
         (initialize_model (H := SampleHost.host) no_handles Sample.disabled).1.2
       ≠ None
     ∧ h_text_generator
         (initialize_model (H := SampleHost.host) no_handles Sample.disabled).1.2
       ≠ None
     ∧ last (logger
               (initialize_model (H := SampleHost.host) no_handles
                  Sample.disabled).2)
       = Some (INFO, "Model initialized successfully"))
  ∧ (∀ e,
       (initialize_model (H := SampleHost.host) no_handles Sample.disabled).1.1
       = Raise e →
       h_text_generator
         (initialize_model (H := SampleHost.host) no_handles Sample.disabled).1.2
       = h_text_generator no_handles
       ∧ last (logger
                 (initialize_model (H := SampleHost.host) no_handles
                    Sample.disabled).2)
         = Some (ERROR, "Model initialization failed: " +:+ exn_str e)).
Proof.
  apply (initialize_model_handles (H := SampleHost.host) no_handles
           Sample.disabled).
  split; intros Hn; exfalso; apply Hn; reflexivity.
Defined.

Lemma initialize_model_pad_token_witness :
  ∃ t', h_tokenizer
          (initialize_model (H := SampleHost.host) no_handles
             Sample.disabled).1.2
        = Some t'
    ∧ pt_tokenizer t' = pt_tokenizer SampleHost.pretrained
    ∧ eos_token t' = eos_token SampleHost.pretrained
    ∧ pad_token t' = match pad_token SampleHost.pretrained with
                     | Some p => Some p
                     | None => eos_token SampleHost.pretrained
                     end
    ∧ (pad_token t' = None →
       pad_token SampleHost.pretrained = None
       ∧ eos_token SampleHost.pretrained = None).
Proof.
  apply (initialize_model_pad_token (H := SampleHost.host) no_handles
           Sample.disabled SampleHost.pretrained).
  reflexivity.
Defined.

Lemma hit_needs_no_engine_witness :
  generate_text (RT := Sample.runtime) Sample.loaded Sample.request Sample.warm
  = generate_text (RT := Sample.runtime) SampleHost.broken_engine
      Sample.request Sample.warm.
Proof.
  apply (hit_needs_no_engine (RT := Sample.runtime) Sample.loaded
           SampleHost.broken_engine Sample.request Sample.warm
           (JDict Sample.stored_dict)
           (snd (cache_read (RT := Sample.runtime) Sample.request Sample.warm)));
    try (vm_compute; reflexivity);
    split; discriminate.
Defined.

Lemma hit_that_cannot_be_served_witness :
  background_tasks
    (snd (generate_text (RT := Sample.runtime) Sample.loaded Sample.request
            SampleHost.listed))
  = background_tasks SampleHost.listed
  ∧ only_read (RT := Sample.runtime) Sample.request SampleHost.listed
      (snd (generate_text (RT := Sample.runtime) Sample.loaded Sample.request
              SampleHost.listed))
  ∧ (∃ msg,
       fst (generate_text (RT := Sample.runtime) Sample.loaded Sample.request
              SampleHost.listed)
       = Raise (PyError msg))
  ∧ ((∀ r, fst (generate_text (RT := Sample.runtime) Sample.loaded
                  Sample.request SampleHost.listed) ≠ Ok r) →
     background_tasks SampleHost.listed = [] →
     ∀ body, validate_request body = Some Sample.request →
       fst (post_generate (RT := Sample.runtime) Sample.loaded body
              SampleHost.listed)
       = ResponseError 500 "Internal Server Error").
Proof.
  apply (hit_that_cannot_be_served (RT := Sample.runtime) Sample.loaded
           Sample.request SampleHost.listed (JList [JInt 1])
           (snd (cache_read (RT := Sample.runtime) Sample.request
                   SampleHost.listed)));
    try (vm_compute; reflexivity).
  split; discriminate.
Defined.

Lemma generated_response_fields_witness :
  GenerationResponse.prompt Sample.cold_response
  = GenerationRequest.prompt Sample.request
  ∧ GenerationResponse.device_used Sample.cold_response = DEVICE Sample.loaded
  ∧ GenerationResponse.cached Sample.cold_response = false
  ∧ GenerationResponse.processing_time Sample.cold_response
    = elapsed Sample.cold
  ∧ ∃ tok f result results ids,
      tokenizer Sample.loaded = Some tok
      ∧ text_generator Sample.loaded = Some f
      ∧ f (GenerationRequest.prompt Sample.request)
          {| ga_max_new_tokens :=
               GenerationRequest.max_new_tokens Sample.request;
             ga_temperature := GenerationRequest.temperature Sample.request;
             ga_top_p := GenerationRequest.top_p Sample.request;
             ga_do_sample := GenerationRequest.do_sample Sample.request;
             ga_pad_token_id := eos_token_id tok;
             ga_return_full_text := false |}
        = Ok (result :: results)
      ∧ PyDict.get "generated_text" result
        = Some (JStr (GenerationResponse.generated_text Sample.cold_response))
      ∧ encode tok
          (JStr (GenerationResponse.generated_text Sample.cold_response))
        = Ok ids
      ∧ GenerationResponse.tokens_generated Sample.cold_response
        = Z.of_nat (length ids).
Proof.
  apply (generated_response_fields (RT := Sample.runtime) Sample.loaded
           Sample.request Sample.cold JNone
           (snd (cache_read (RT := Sample.runtime) Sample.request Sample.cold)));
    vm_compute; reflexivity.
Defined.

Lemma store_up_cold : store_up Sample.cold.
Proof. eexists. split; [reflexivity|]. intros n. reflexivity. Qed.

Lemma write_then_read_witness :
  fst (get_cached_response (RT := Sample.runtime) Sample.key
         (snd (cache_response (RT := Sample.runtime) Sample.key
                 Sample.stored_dict 3600 Sample.cold)))
  = match json_loads (Runtime := Sample.runtime)
            (Json.dumps (float_repr (Runtime := Sample.runtime)) false
               (JDict Sample.stored_dict)) with
    | Ok v => Ok v
    | Raise _ => Ok JNone
    end
  ∧ (∀ key', key' ≠ Sample.key →
       fst (get_cached_response (RT := Sample.runtime) key'
              (snd (cache_response (RT := Sample.runtime) Sample.key
                      Sample.stored_dict 3600 Sample.cold)))
       = fst (get_cached_response (RT := Sample.runtime) key' Sample.cold)).
Proof.
  apply (write_then_read (RT := Sample.runtime) Sample.key Sample.stored_dict
           3600 Sample.cold).
  eexists. split; [reflexivity|]. intros n. reflexivity.
Defined.

Lemma second_request_is_served_witness :
  ∃ r2,
    fst (generate_text (RT := SampleHost.replay_runtime) Sample.loaded
           Sample.request
           (snd (run_background_tasks (RT := SampleHost.replay_runtime)
                   (snd (generate_text (RT := SampleHost.replay_runtime)
                           Sample.loaded Sample.request Sample.cold)))))
    = Ok r2
    ∧ GenerationResponse.cached r2 = true
    ∧ GenerationResponse.generated_text r2
      = GenerationResponse.generated_text Sample.cold_response
    ∧ GenerationResponse.tokens_generated r2
      = GenerationResponse.tokens_generated Sample.cold_response
    ∧ GenerationResponse.prompt r2
      = GenerationResponse.prompt Sample.cold_response
    ∧ GenerationResponse.device_used r2
      = GenerationResponse.device_used Sample.cold_response
    ∧ GenerationResponse.processing_time r2
      = elapsed
          (snd (run_background_tasks (RT := SampleHost.replay_runtime)
                  (snd (generate_text (RT := SampleHost.replay_runtime)
                          Sample.loaded Sample.request Sample.cold)))).
Proof.
  apply (second_request_is_served (RT := SampleHost.replay_runtime)
           Sample.loaded Sample.request Sample.cold JNone
           (snd (cache_read (RT := SampleHost.replay_runtime) Sample.request
                   Sample.cold))
           Sample.cold_response);
    try (vm_compute; reflexivity).
  eexists. split; [reflexivity|]. intros n. reflexivity.
Defined.

Lemma other_request_reads_the_same_witness :
  fst (cache_read (RT := Sample.runtime) (Sample.request_for "pong")
         (snd (cache_response (RT := Sample.runtime)
                 (key_of (RT := Sample.runtime) Sample.request)
                 Sample.stored_dict 3600 Sample.cold)))
  = fst (cache_read (RT := Sample.runtime) (Sample.request_for "pong")
           Sample.cold).
Proof.
  apply (other_request_reads_the_same (RT := Sample.runtime) Sample.request
           (Sample.request_for "pong") Sample.stored_dict 3600 Sample.cold).
  - intros a b E. exact E.
  - exact float_text_inj.
  - intros x. apply float_text_without. reflexivity.
  - intros x. apply float_text_without. reflexivity.
  - intros [Hp _]. discriminate Hp.
  - eexists. split; [reflexivity|]. intros n. reflexivity.
Defined.

Lemma startup_and_the_guard_witness :
  (startup_event (H := SampleHost.host) no_handles Sample.disabled).1.1 = Ok tt
  ∧ fst (generate_text (RT := Sample.runtime)
           (globals_of (H := SampleHost.host)
              (startup_event (H := SampleHost.host) no_handles
                 Sample.disabled).1.2)
           Sample.request Sample.cold)
    ≠ Raise (HTTPException 503 "Model not loaded").
Proof.
  split; [reflexivity|].
  apply (proj1 (proj2 (startup_and_the_guard (RT := Sample.runtime)
                         (H := SampleHost.host) Sample.disabled
                         Sample.request Sample.cold))).
  reflexivity.
Defined.

Lemma health_against_the_process_witness :
  PyDict.get "status"
    (health_check (H := SampleHost.host)
       (globals_of (H := SampleHost.host) SampleHost.loaded_handles)
       Sample.disabled)
  = Some (JStr "healthy")
  ∧ (PyDict.get "model_loaded"
       (health_check (H := SampleHost.host)
          (globals_of (H := SampleHost.host) SampleHost.loaded_handles)
          Sample.disabled)
     = Some (JBool true)
     ∧ (∀ request w2,
          fst (generate_text (RT := Sample.runtime)
                 (globals_of (H := SampleHost.host) SampleHost.loaded_handles)
                 request w2)
          ≠ Raise (HTTPException 503 "Model not loaded"))
     ∨ PyDict.get "model_loaded"
         (health_check (H := SampleHost.host)
            (globals_of (H := SampleHost.host) SampleHost.loaded_handles)
            Sample.disabled)
       = Some (JBool false)
       ∧ (∀ request w2,
            fst (generate_text (RT := Sample.runtime)
                   (globals_of (H := SampleHost.host)
                      SampleHost.loaded_handles)
                   request w2)
            = Raise (HTTPException 503 "Model not loaded")))
  ∧ (PyDict.get "cache_available"
       (health_check (H := SampleHost.host)
          (globals_of (H := SampleHost.host) SampleHost.loaded_handles)
          Sample.disabled)
     = Some (JBool true)
     ↔ redis_client Sample.disabled ≠ None)
  ∧ (∀ url c,
       getenv (Host := SampleHost.host) "CACHE_URL" = Some url → url ≠ "" →
       redis_from_url (Host := SampleHost.host) url = Ok c →
       PyDict.get "cache_available"
         (health_check (H := SampleHost.host)
            (globals_of (H := SampleHost.host) SampleHost.loaded_handles)
            (snd (connect_cache (H := SampleHost.host) Sample.disabled)))
       = Some (JBool true)).
Proof.
  apply (health_against_the_process (RT := Sample.runtime)
           (H := SampleHost.host) SampleHost.loaded_handles Sample.disabled).
  split; discriminate.
Defined.

Lemma validated_request_bounds_witness :
  (1 ≤ String.length (GenerationRequest.prompt Sample.request) ≤ 2000)%nat
  ∧ 1 ≤ GenerationRequest.max_new_tokens Sample.request ≤ 500
  ∧ between 0.1 2.0 (GenerationRequest.temperature Sample.request)
  ∧ between 0.1 1.0 (GenerationRequest.top_p Sample.request)
  ∧ is_number (GenerationRequest.temperature Sample.request)
  ∧ is_number (GenerationRequest.top_p Sample.request).
Proof.
  apply (validated_request_bounds Sample.body Sample.request). reflexivity.
Defined.

Lemma test_api_requests_witness :
  TestApi.sent
    (snd (TestApi.test_api (E := SampleHost.env) "http://api"
            SampleHost.console))
  = TestApi.sent SampleHost.console ++ first_six "http://api"
    ++ [cache_request "http://api"]
    ++ (if second_follows (E := SampleHost.env)
             (TestApi.http (Env := SampleHost.env)
                (TestApi.sent SampleHost.console ++ first_six "http://api")
                (cache_request "http://api"))
        then [cache_request "http://api"] else []).
Proof.
  apply (test_api_requests (E := SampleHost.env) "http://api"
           SampleHost.console).
  reflexivity.
Defined.

(** The sample server answers the health check and times out on every
    generation: the script still reports success. *)
Example script_passes_on_timeouts :
  fst (TestApi.test_api (E := SampleHost.env) "http://api" SampleHost.console)
  = TestApi.Returns true
  ∧ length (TestApi.sent
              (snd (TestApi.test_api (E := SampleHost.env) "http://api"
                      SampleHost.console))) = 7%nat
  ∧ fst (TestApi.main (E := SampleHost.env) ["test_api.py"; "http://api//"]
           SampleHost.console) = None
  ∧ fst (TestApi.main (E := SampleHost.env) ["test_api.py"; "http://"]
           SampleHost.console) = Some 1.
Proof. repeat split; vm_compute; reflexivity. Qed.

End MoreWitnesses.
